(** * psycopg2ct: the value-adaptation layer ([psycopg2ct/_impl/adapters.py])

    A shallow embedding of the adapter registry, the dispatch entry point
    [adapt], the helper [_getquoted] and the formatter classes, followed by
    the properties the specification states about them.

    The module is Python 2 code ([xrange], [iteritems], [buffer], [long],
    [unicode]): [str] is a byte string and is modelled by [string]. *)

From Stdlib Require Import ZArith String Ascii List DecimalString Lia.
From Stdlib Require Import Floats.SpecFloat.
From stdpp Require Import base option countable gmap strings list.

Local Open Scope string_scope.

(** ** Exceptions and results *)

(** The exception classes that the module raises, catches or lets through.
    [ProgrammingError] and [DataError] are the driver's own classes
    ([psycopg2ct._impl.exceptions]), [ArgumentError] is the one of [ctypes];
    the others are interpreter built-ins. *)
Inductive ExnClass :=
| KeyError
| AttributeError
| TypeError
| ValueError
| OverflowError
| RuntimeError
| UnicodeError
| ArgumentError
| ProgrammingError
| DataError.

(** The outcome of a call: a returned object or a raised exception. *)
Inductive Result (A : Type) :=
| Ok (a : A)
| Raise (c : ExnClass) (msg : string).
Arguments Ok {A} a.
Arguments Raise {A} c msg.

Definition bind {A B : Type} (r : Result A) (k : A -> Result B) : Result B :=
  match r with
  | Ok a => k a
  | Raise c msg => Raise c msg
  end.

Notation "'let!' x ':=' r 'in' k" := (bind r (fun x => k))
  (at level 10, x name, r at level 100, k at level 200).

(** A loop body run over a list from left to right; the first exception
    leaves the loop. *)
Fixpoint mapM {A B : Type} (f : A -> Result B) (l : list A) : Result (list B) :=
  match l with
  | [] => Ok []
  | x :: rest =>
      let! y := f x in
      let! ys := mapM f rest in
      Ok (y :: ys)
  end.

(** ** Types (class objects) *)

(** Built-in and standard-library types of the interpreter that the module
    names or that appear in their method-resolution orders. *)
Inductive Builtin :=
| t_object | t_type | t_NoneType | t_bool | t_int | t_long | t_float
| t_basestring | t_str | t_unicode | t_bytes
| t_bytearray | t_buffer | t_memoryview
| t_list | t_tuple
| t_date | t_datetime | t_time | t_timedelta | t_Decimal.

(** The classes declared in [adapters.py], and formatter classes that come
    from elsewhere ([extensions.SQL_IN], [extensions.NoneAdapter], classes an
    application registers), known by an identifier. *)
Inductive Formatter :=
| _BaseAdapter | ISQLQuote
| AsIs | Binary | Boolean | DateTime | Decimal | Float | Int | List | Long
| QuotedString
| AppFormatter (id : positive).

Inductive PyType :=
| TBuiltin (b : Builtin)
| TFormatter (c : Formatter)
| TClass (id : positive).

(** The capability tag of [adapt] is itself a class object; the default is
    the class [ISQLQuote]. *)
Definition Proto := PyType.
Definition proto_ISQLQuote : Proto := TFormatter ISQLQuote.

#[global] Instance Builtin_eq_dec : EqDecision Builtin.
Proof. solve_decision. Defined.
#[global] Instance Formatter_eq_dec : EqDecision Formatter.
Proof. solve_decision. Defined.
#[global] Instance PyType_eq_dec : EqDecision PyType.
Proof. solve_decision. Defined.

Definition Builtin_to_nat (b : Builtin) : nat :=
  match b with
  | t_object => 0 | t_NoneType => 1 | t_bool => 2 | t_int => 3 | t_long => 4
  | t_float => 5 | t_basestring => 6 | t_str => 7 | t_unicode => 8
  | t_bytearray => 9 | t_buffer => 10 | t_memoryview => 11 | t_list => 12
  | t_tuple => 13 | t_date => 14 | t_datetime => 15 | t_time => 16
  | t_timedelta => 17 | t_Decimal => 18 | t_type => 19 | t_bytes => 20
  end.

Definition Builtin_of_nat (n : nat) : Builtin :=
  match n with
  | 0 => t_object | 1 => t_NoneType | 2 => t_bool | 3 => t_int | 4 => t_long
  | 5 => t_float | 6 => t_basestring | 7 => t_str | 8 => t_unicode
  | 9 => t_bytearray | 10 => t_buffer | 11 => t_memoryview | 12 => t_list
  | 13 => t_tuple | 14 => t_date | 15 => t_datetime | 16 => t_time
  | 17 => t_timedelta | 18 => t_Decimal | 19 => t_type | _ => t_bytes
  end.

Definition Builtin_of_to_nat (b : Builtin) :
  Builtin_of_nat (Builtin_to_nat b) = b :=
  ltac:(destruct b; reflexivity).

#[global] Instance Builtin_countable : Countable Builtin :=
  inj_countable' Builtin_to_nat Builtin_of_nat Builtin_of_to_nat.

Definition Formatter_to_sum (c : Formatter) : nat + positive :=
  match c with
  | _BaseAdapter => inl 0 | ISQLQuote => inl 1 | AsIs => inl 2
  | Binary => inl 3 | Boolean => inl 4 | DateTime => inl 5 | Decimal => inl 6
  | Float => inl 7 | Int => inl 8 | List => inl 9 | Long => inl 10
  | QuotedString => inl 11
  | AppFormatter id => inr id
  end.

Definition Formatter_of_sum (s : nat + positive) : Formatter :=
  match s with
  | inl 0 => _BaseAdapter | inl 1 => ISQLQuote | inl 2 => AsIs
  | inl 3 => Binary | inl 4 => Boolean | inl 5 => DateTime | inl 6 => Decimal
  | inl 7 => Float | inl 8 => Int | inl 9 => List | inl 10 => Long
  | inl _ => QuotedString
  | inr id => AppFormatter id
  end.

Definition Formatter_of_to_sum (c : Formatter) :
  Formatter_of_sum (Formatter_to_sum c) = c :=
  ltac:(destruct c; reflexivity).

#[global] Instance Formatter_countable : Countable Formatter :=
  inj_countable' Formatter_to_sum Formatter_of_sum Formatter_of_to_sum.

Definition PyType_to_sum (t : PyType) : Builtin + (Formatter + positive) :=
  match t with
  | TBuiltin b => inl b
  | TFormatter c => inr (inl c)
  | TClass id => inr (inr id)
  end.

Definition PyType_of_sum (s : Builtin + (Formatter + positive)) : PyType :=
  match s with
  | inl b => TBuiltin b
  | inr (inl c) => TFormatter c
  | inr (inr id) => TClass id
  end.

Definition PyType_of_to_sum (t : PyType) :
  PyType_of_sum (PyType_to_sum t) = t :=
  ltac:(destruct t; reflexivity).

#[global] Instance PyType_countable : Countable PyType :=
  inj_countable' PyType_to_sum PyType_of_sum PyType_of_to_sum.

(** ** Values *)

(** [tzinfo] objects: the driver's [tz.LOCAL] and fixed offsets. *)
Inductive Tz :=
| TZ_LOCAL
| TzOffset (minutes : Z).

Record PyDate := { year : Z; month : Z; day : Z }.

Record PyTime := {
  hour : Z; minute : Z; second : Z; microsecond : Z;
  tzinfo : option Tz
}.

Record PyDatetime := { dt_date : PyDate; dt_time : PyTime }.

Record PyTimedelta := { days : Z; seconds : Z; microseconds : Z }.

(** [decimal.Decimal]: sign, coefficient and exponent; the exponent of a
    special value is a letter ([F] infinity, [n] quiet NaN, [N] signalling
    NaN). *)
Inductive DecExp :=
| ExpInt (e : Z)
| ExpF
| Expn
| ExpN.

Record PyDecimal := { dec_sign : bool; dec_int : N; dec_exp : DecExp }.

(** The part of a connection object that the formatters read. *)
Record Connection := {
  _pgconn : positive;
  _equote : bool;
  conn_encoding : string
}.

Local Unset Elimination Schemes.

(** Python objects.  [VStr] is a byte string and [VUnicode] a text string.
    A formatter instance [VAdapter cls w c] is an object of class [cls]
    whose attributes [_wrapped] and [_conn] hold [w] and [c].
    [VObject ty conform] is an instance of the application class [TClass ty];
    [conform] is its [__conform__] attribute when it has one.
    [VClass t conform] is the class object [t] itself (the value [int], the
    value [Binary]); [conform] is its [__conform__] attribute when the class
    defines the method: an unbound method, whose call raises. *)
Inductive Value :=
| VNone
| VBool (b : bool)
| VInt (n : Z)
| VLong (n : Z)
| VFloat (f : spec_float)
| VDecimal (d : PyDecimal)
| VStr (s : string)
| VUnicode (u : list N)
| VBytearray (s : string)
| VBuffer (s : string)
| VMemoryview (s : string)
| VList (items : list Value)
| VTuple (items : list Value)
| VDate (d : PyDate)
| VTime (t : PyTime)
| VDatetime (dt : PyDatetime)
| VTimedelta (td : PyTimedelta)
| VAdapter (cls : Formatter) (_wrapped : Value) (_conn : option Connection)
| VObject (ty : positive) (conform : option (Proto -> Result Value))
| VClass (t : PyType) (conform : option (Proto -> Result Value)).

Local Set Elimination Schemes.

(** ** The interpreter and the native library

    What the module calls but does not define: the interpreter's [str],
    [repr] and [isoformat] renderings, the codecs, the class table of the
    application, [_config.PG_VERSION], the [libpq] escape functions and the
    platform's timestamp conversion. *)
Record Runtime := {
  version_info : Z * Z;
  PG_VERSION : Z;
  class_name : positive -> string;
  class_bases : positive -> list PyType;
  formatter_name : positive -> string;
  formatter_bases : positive -> list PyType;
  formatter_has_prepare : positive -> bool;
  formatter_getquoted : positive -> Value -> option Connection -> Result Value;
  builtin_str : Value -> Result string;
  builtin_repr : Value -> Result string;
  builtin_float : Value -> Result spec_float;
  (** [obj.isoformat()] on a date, time or datetime; for a value with a
      time zone the method calls the [tzinfo] object, which can raise. *)
  builtin_isoformat : Value -> Result string;
  default_encoding : string;
  unicode_encode : string -> list N -> Result string;
  (** [PQescapeStringConn pgconn to from length]: the destination buffer
      after the call and the value stored in the error cell. *)
  PQescapeStringConn : positive -> string -> string -> Z -> string * Z;
  (** [PQescapeString to from length]: the destination buffer after the
      call. *)
  PQescapeString : string -> string -> Z -> string;
  (** [PQescapeByteaConn pgconn from from_length], with the object given as
      [from] and the C [size_t] given as [from_length]: the memory behind
      the returned pointer and the value stored in [to_length]. *)
  PQescapeByteaConn : positive -> Value -> Z -> Result (string * Z);
  (** [PQescapeBytea from from_length]: as above. *)
  PQescapeBytea : Value -> Z -> Result (string * Z);
  (** [datetime.datetime.fromtimestamp(ticks, tz)]. *)
  fromtimestamp : Value -> option Tz -> Result PyDatetime
}.

(** ** Interpreter built-ins used by the module *)

Definition str_of_Z (z : Z) : string := NilZero.string_of_int (Z.to_int z).

Definition nul : ascii := Ascii.zero.

(** [ctypes.create_string_buffer(init, size)]: [size] bytes, [init] followed
    by zero bytes. *)
Definition create_string_buffer (init : string) (size : Z) : string :=
  init +:+ string_of_list_ascii
             (repeat nul (Z.to_nat size - String.length init)).

(** The [value] attribute of a ctypes character buffer: the bytes before the
    first zero byte. *)
Fixpoint buffer_value (buf : string) : string :=
  match buf with
  | EmptyString => EmptyString
  | String c rest =>
      if Ascii.eqb c nul then EmptyString else String c (buffer_value rest)
  end.

(** [p[:n]] on a ctypes pointer: the first [n] bytes of the memory behind
    it. *)
Definition pointer_slice (mem : string) (n : Z) : string :=
  String.substring 0 (Z.to_nat n) mem.

(** [s.startswith('-')]. *)
Definition startswith_minus (s : string) : bool := String.prefix "-" s.

(** [sep.join(items)] on byte strings; an item that is not a byte string is
    a [TypeError]. *)
Fixpoint join_items (items : list Value) : Result (list string) :=
  match items with
  | [] => Ok []
  | VStr s :: rest =>
      let! ss := join_items rest in
      Ok (s :: ss)
  | _ :: _ => Raise TypeError "sequence item: expected string"
  end.

Definition bytes_join (sep : string) (items : list Value) : Result string :=
  let! ss := join_items items in
  Ok (String.concat sep ss).

(** Truth value of an object. *)
Definition py_truth (v : Value) : bool :=
  match v with
  | VNone => false
  | VBool b => b
  | VInt n | VLong n => negb (n =? 0)%Z
  | VFloat (S754_zero _) => false
  | VDecimal d =>
      match dec_exp d with
      | ExpInt _ => negb (dec_int d =? 0)%N
      | _ => true
      end
  | VStr s | VBytearray s | VBuffer s | VMemoryview s =>
      negb (String.length s =? 0)%nat
  | VUnicode u => negb (length u =? 0)%nat
  | VList l | VTuple l => negb (length l =? 0)%nat
  | VTimedelta td =>
      negb ((days td =? 0) && (seconds td =? 0) && (microseconds td =? 0))%Z
  | _ => true
  end.

(** [len(v)]. *)
Definition py_len (v : Value) : Result Z :=
  match v with
  | VStr s | VBytearray s | VBuffer s | VMemoryview s =>
      Ok (Z.of_nat (String.length s))
  | VUnicode u => Ok (Z.of_nat (length u))
  | VList l | VTuple l => Ok (Z.of_nat (length l))
  | _ => Raise TypeError "object has no len()"
  end.

(** The items [v[0]], ..., [v[len(v) - 1]] of a sequence. *)
Definition py_items (v : Value) : Result (list Value) :=
  match v with
  | VList l | VTuple l => Ok l
  | VStr s | VBuffer s | VMemoryview s =>
      Ok (map (fun c => VStr (String c EmptyString)) (list_ascii_of_string s))
  | VBytearray s =>
      Ok (map (fun c => VInt (Z.of_N (N_of_ascii c))) (list_ascii_of_string s))
  | VUnicode u => Ok (map (fun c => VUnicode [c]) u)
  | _ => Raise TypeError "object has no len()"
  end.

(** How [ctypes] passes the second argument of [PQescapeBytea], which the
    client library declares as [size_t from_length]: an integer is handed
    on, any other object (a byte string, a buffer) is refused with
    [ArgumentError] before the native function is entered. *)
Definition ctypes_size_t (v : Value) : Result Z :=
  match v with
  | VInt n | VLong n => Ok n
  | VBool b => Ok (if b then 1 else 0)%Z
  | _ =>
      Raise ArgumentError
        "argument 2: <type 'exceptions.TypeError'>: wrong type"
  end.

(** [math.isnan], [math.isinf] and [n > 0] on a float. *)
Definition isnan (n : spec_float) : bool :=
  match n with S754_nan => true | _ => false end.

Definition isinf (n : spec_float) : bool :=
  match n with S754_infinity _ => true | _ => false end.

Definition float_gt_zero (n : spec_float) : bool :=
  match n with
  | S754_infinity s | S754_finite s _ _ => negb s
  | _ => false
  end.

(** [Decimal.is_finite]. *)
Definition is_finite (d : PyDecimal) : bool :=
  match dec_exp d with ExpInt _ => true | _ => false end.

(** Lexicographic order on [sys.version_info[:2]]. *)
Definition version_lt (a b : Z * Z) : bool :=
  ((fst a <? fst b) || ((fst a =? fst b) && (snd a <? snd b)))%Z.

(** ** The calendar constructors of [datetime]

    [datetime.date], [datetime.time] and [datetime.datetime] first read
    their integer arguments as C [int]s, which raises [OverflowError] for an
    integer that does not fit, then check the fields and raise [ValueError]
    on a field out of range. *)

Definition INT_MIN : Z := (- 2 ^ 31)%Z.
Definition INT_MAX : Z := (2 ^ 31 - 1)%Z.

(** An integer that fits a C [int]. *)
Definition in_c_int (x : Z) : Prop := (INT_MIN <= x <= INT_MAX)%Z.

#[global] Instance in_c_int_dec (x : Z) : Decision (in_c_int x).
Proof. unfold in_c_int. apply _. Defined.

(** Reading an argument as a C [int].  (The text of the message depends on
    the platform for integers beyond a C [long].) *)
Definition parse_c_int (x : Z) : Result Z :=
  if (x <? INT_MIN)%Z
  then Raise OverflowError "signed integer is less than minimum"
  else if (INT_MAX <? x)%Z
  then Raise OverflowError "signed integer is greater than maximum"
  else Ok x.

Definition MINYEAR : Z := 1.
Definition MAXYEAR : Z := 9999.

Definition is_leap (y : Z) : bool :=
  ((y mod 4 =? 0) && (negb (y mod 100 =? 0) || (y mod 400 =? 0)))%Z.

Definition days_in_month (y m : Z) : Z :=
  if (m =? 2)%Z then (if is_leap y then 29 else 28)%Z
  else if ((m =? 4) || (m =? 6) || (m =? 9) || (m =? 11))%Z then 30%Z
  else 31%Z.

(** The ranges of the fields, as a proposition. *)
Definition valid_date (y m d : Z) : Prop :=
  (MINYEAR <= y <= MAXYEAR /\ 1 <= m <= 12 /\ 1 <= d <= days_in_month y m)%Z.

Definition valid_time (h mi s : Z) : Prop :=
  (0 <= h <= 23 /\ 0 <= mi <= 59 /\ 0 <= s <= 59)%Z.

(** The range checks, on arguments that were read as C [int]s. *)
Definition check_date_fields (y m d : Z) : Result unit :=
  if negb ((MINYEAR <=? y) && (y <=? MAXYEAR))%Z
  then Raise ValueError "year is out of range"
  else if negb ((1 <=? m) && (m <=? 12))%Z
  then Raise ValueError "month must be in 1..12"
  else if negb ((1 <=? d) && (d <=? days_in_month y m))%Z
  then Raise ValueError "day is out of range for month"
  else Ok tt.

Definition check_time_fields (h mi s us : Z) : Result unit :=
  if negb ((0 <=? h) && (h <=? 23))%Z
  then Raise ValueError "hour must be in 0..23"
  else if negb ((0 <=? mi) && (mi <=? 59))%Z
  then Raise ValueError "minute must be in 0..59"
  else if negb ((0 <=? s) && (s <=? 59))%Z
  then Raise ValueError "second must be in 0..59"
  else if negb ((0 <=? us) && (us <=? 999999))%Z
  then Raise ValueError "microsecond must be in 0..999999"
  else Ok tt.

Definition datetime_date (y m d : Z) : Result PyDate :=
  let! y := parse_c_int y in
  let! m := parse_c_int m in
  let! d := parse_c_int d in
  let! _ := check_date_fields y m d in
  Ok {| year := y; month := m; day := d |}.

Definition datetime_time (h mi s : Z) (tz : option Tz) : Result PyTime :=
  let! h := parse_c_int h in
  let! mi := parse_c_int mi in
  let! s := parse_c_int s in
  let! _ := check_time_fields h mi s 0 in
  Ok {| hour := h; minute := mi; second := s; microsecond := 0;
        tzinfo := tz |}.

Definition datetime_datetime (y m d h mi s : Z) (tz : option Tz)
  : Result PyDatetime :=
  let! y := parse_c_int y in
  let! m := parse_c_int m in
  let! d := parse_c_int d in
  let! h := parse_c_int h in
  let! mi := parse_c_int mi in
  let! s := parse_c_int s in
  let! _ := check_date_fields y m d in
  let! _ := check_time_fields h mi s 0 in
  Ok {| dt_date := {| year := y; month := m; day := d |};
        dt_time := {| hour := h; minute := mi; second := s;
                      microsecond := 0; tzinfo := tz |} |}.

(** [dt.date()] and [dt.time()]; the latter drops the time zone. *)
Definition datetime_get_date (dt : PyDatetime) : PyDate := dt_date dt.

Definition datetime_get_time (dt : PyDatetime) : PyTime :=
  let t := dt_time dt in
  {| hour := hour t; minute := minute t; second := second t;
     microsecond := microsecond t; tzinfo := None |}.

(** ** The module [adapters] *)

(** The module-level dict [adapters], keyed by (type, protocol). *)
Abbreviation Registry := (gmap (PyType * Proto) Formatter).

Section Adapters.

Context (rt : Runtime).

(** *** Classes: [type(v)], [t.mro()], [t.__name__] *)

(** Whether the interpreter is a Python 3
    ([sys.version_info[:2] >= (3, 0)]). *)
Definition python3 : bool := negb (version_lt (version_info rt) (3, 0)%Z).

(** [type(v)].  A byte string is a [str] on Python 2 and a [bytes] on
    Python 3; a text string is a [unicode] on Python 2 and a [str] on
    Python 3.  The type of a class object is [type]. *)
Definition type_of (v : Value) : PyType :=
  match v with
  | VNone => TBuiltin t_NoneType
  | VBool _ => TBuiltin t_bool
  | VInt _ => TBuiltin t_int
  | VLong _ => TBuiltin t_long
  | VFloat _ => TBuiltin t_float
  | VDecimal _ => TBuiltin t_Decimal
  | VStr _ => if python3 then TBuiltin t_bytes else TBuiltin t_str
  | VUnicode _ => if python3 then TBuiltin t_str else TBuiltin t_unicode
  | VBytearray _ => TBuiltin t_bytearray
  | VBuffer _ => TBuiltin t_buffer
  | VMemoryview _ => TBuiltin t_memoryview
  | VList _ => TBuiltin t_list
  | VTuple _ => TBuiltin t_tuple
  | VDate _ => TBuiltin t_date
  | VTime _ => TBuiltin t_time
  | VDatetime _ => TBuiltin t_datetime
  | VTimedelta _ => TBuiltin t_timedelta
  | VAdapter cls _ _ => TFormatter cls
  | VObject ty _ => TClass ty
  | VClass _ _ => TBuiltin t_type
  end.

(** The method-resolution order of a class, as [t.mro()] returns it when
    the call is made on a class whose metaclass is [type]; its head is the
    class itself. *)
Definition mro (t : PyType) : list PyType :=
  match t with
  | TBuiltin t_object => [TBuiltin t_object]
  | TBuiltin t_bool => [TBuiltin t_bool; TBuiltin t_int; TBuiltin t_object]
  | TBuiltin t_str =>
      if python3 then [TBuiltin t_str; TBuiltin t_object]
      else [TBuiltin t_str; TBuiltin t_basestring; TBuiltin t_object]
  | TBuiltin t_unicode =>
      [TBuiltin t_unicode; TBuiltin t_basestring; TBuiltin t_object]
  | TBuiltin t_datetime =>
      [TBuiltin t_datetime; TBuiltin t_date; TBuiltin t_object]
  | TBuiltin b => [TBuiltin b; TBuiltin t_object]
  | TFormatter _BaseAdapter => [TFormatter _BaseAdapter; TBuiltin t_object]
  | TFormatter Float =>
      [TFormatter Float; TFormatter ISQLQuote; TFormatter _BaseAdapter;
       TBuiltin t_object]
  | TFormatter (AppFormatter id) =>
      TFormatter (AppFormatter id) :: formatter_bases rt id
  | TFormatter c => [TFormatter c; TFormatter _BaseAdapter; TBuiltin t_object]
  | TClass id => TClass id :: class_bases rt id
  end.

(** The call [obj_type.mro()].  On the metaclass [type] the attribute
    [mro] is the method descriptor itself, and the call without an argument
    raises [TypeError]. *)
Definition call_mro (obj_type : PyType) : Result (list PyType) :=
  match obj_type with
  | TBuiltin t_type =>
      Raise TypeError "descriptor 'mro' of 'type' object needs an argument"
  | _ => Ok (mro obj_type)
  end.

Definition type_name (t : PyType) : string :=
  match t with
  | TBuiltin t_object => "object"
  | TBuiltin t_type => "type"
  | TBuiltin t_bytes => "bytes"
  | TBuiltin t_NoneType => "NoneType"
  | TBuiltin t_bool => "bool"
  | TBuiltin t_int => "int"
  | TBuiltin t_long => "long"
  | TBuiltin t_float => "float"
  | TBuiltin t_basestring => "basestring"
  | TBuiltin t_str => "str"
  | TBuiltin t_unicode => "unicode"
  | TBuiltin t_bytearray => "bytearray"
  | TBuiltin t_buffer => "buffer"
  | TBuiltin t_memoryview => "memoryview"
  | TBuiltin t_list => "list"
  | TBuiltin t_tuple => "tuple"
  | TBuiltin t_date => "date"
  | TBuiltin t_datetime => "datetime"
  | TBuiltin t_time => "time"
  | TBuiltin t_timedelta => "timedelta"
  | TBuiltin t_Decimal => "Decimal"
  | TFormatter _BaseAdapter => "_BaseAdapter"
  | TFormatter ISQLQuote => "ISQLQuote"
  | TFormatter AsIs => "AsIs"
  | TFormatter Binary => "Binary"
  | TFormatter Boolean => "Boolean"
  | TFormatter DateTime => "DateTime"
  | TFormatter Decimal => "Decimal"
  | TFormatter Float => "Float"
  | TFormatter Int => "Int"
  | TFormatter List => "List"
  | TFormatter Long => "Long"
  | TFormatter QuotedString => "QuotedString"
  | TFormatter (AppFormatter id) => formatter_name rt id
  | TClass id => class_name rt id
  end.

(** [str(v)], [repr(v)] and [float(v)].  The decimal rendering of integers
    is written out; the other renderings are the interpreter's. *)
Definition py_str (v : Value) : Result string :=
  match v with
  | VInt n | VLong n => Ok (str_of_Z n)
  | VStr s => Ok s
  | _ => builtin_str rt v
  end.

Definition py_repr (v : Value) : Result string := builtin_repr rt v.

Definition py_float (v : Value) : Result spec_float :=
  match v with
  | VFloat f => Ok f
  | _ => builtin_float rt v
  end.

(** [obj.isoformat()]; only the temporal types have the method.  On a
    value with a time zone it asks the [tzinfo] object for the offset, and
    the exception of that call, if any, is the outcome. *)
Definition isoformat (obj : Value) : Result string :=
  match obj with
  | VDate _ | VTime _ | VDatetime _ => builtin_isoformat rt obj
  | _ => Raise AttributeError "isoformat"
  end.

(** *** Conversion of text to bytes *)

(** The conversion of native text into bytes with a given encoding, shared
    by the two functions below: a byte string is bytes already and is
    returned as it is, a [unicode] string goes through the codec. *)
Definition encode_text (encoding : string) (s : Value) : Result string :=
  match s with
  | VStr b => Ok b
  | VUnicode u => unicode_encode rt encoding u
  | _ => Raise TypeError "expected a string"
  end.

(** Modelled from the spec: [util.ensure_bytes] is not part of the module.
    The specification describes it as the conversion of the input to bytes
    with a default encoding, used when no connection is bound. *)
Definition util_ensure_bytes (s : Value) : Result string :=
  encode_text (default_encoding rt) s.

(** Modelled from the spec: the method [ensure_bytes] of a connection is
    not part of the module.  The specification describes it as the
    conversion of native text into bytes with the connection's configured
    text encoding. *)
Definition conn_ensure_bytes (conn : Connection) (s : Value) : Result string :=
  encode_text (conn_encoding conn) s.

(** [_BaseAdapter._ensure_bytes]. *)
Definition _ensure_bytes (_conn : option Connection) (s : Value)
  : Result string :=
  match _conn with
  | Some conn => conn_ensure_bytes conn s
  | None => util_ensure_bytes s
  end.

(** *** Formatters without nested adaptation

    Each [X_getquoted w c] is the method [getquoted] of class [X] on an
    instance whose [_wrapped] is [w] and whose [_conn] is [c]. *)

(** The truth value of [self._conn]. *)
Definition conn_bound (_conn : option Connection) : bool :=
  match _conn with Some _ => true | None => false end.

(** [self._conn and self._conn._equote]. *)
Definition conn_equote (_conn : option Connection) : bool :=
  match _conn with Some conn => _equote conn | None => false end.

(** Prepend a space in front of negative numbers. *)
Definition sign_space (value : string) : string :=
  if startswith_minus value then " " +:+ value else value.

Definition AsIs_getquoted (w : Value) (c : option Connection) : Result string :=
  let! s := py_str w in
  _ensure_bytes c (VStr s).

(** The connection-less call of line 65:
    [libpq.PQescapeBytea(self._wrapped, self._wrapped, ...)].  The wrapped
    object is given as [from] and again as [from_length]. *)
Definition Binary_escape_unbound (w : Value) : Result (string * Z) :=
  let! from_length := ctypes_size_t w in
  PQescapeBytea rt w from_length.

(** The escape call of [Binary.getquoted] (lines 60 to 66): with a bound
    connection and a recent [PG_VERSION] the connection-aware function gets
    the buffer and its length; the other branch hands [self._wrapped] to
    [PQescapeBytea] in both positions. *)
Definition Binary_escape (w : Value) (c : option Connection)
  : Result (string * Z) :=
  if conn_bound c && (0x080104 <=? PG_VERSION rt)%Z then
    match c with
    | Some conn =>
        let! n := py_len w in
        PQescapeByteaConn rt (_pgconn conn) w n
    | None => Binary_escape_unbound w
    end
  else Binary_escape_unbound w.

Definition Binary_getquoted (w : Value) (c : option Connection)
  : Result string :=
  match w with
  | VNone => Ok "NULL"
  | _ =>
      let! escaped := Binary_escape w c in
      let '(data_pointer, to_length) := escaped in
      let data := pointer_slice data_pointer (to_length - 1) in
      if conn_equote c
      then Ok ("E'" +:+ data +:+ "'::bytea")
      else Ok ("'" +:+ data +:+ "'::bytea")
  end.

Definition Boolean_getquoted (w : Value) : Result string :=
  Ok (if py_truth w then "true" else "false").

Definition DateTime_getquoted (w : Value) (c : option Connection)
  : Result string :=
  let! rv :=
    match w with
    | VTimedelta td =>
        Ok ("'" +:+ str_of_Z (days td) +:+ " days " +:+ str_of_Z (seconds td)
            +:+ ".0 seconds'::interval")
    | _ =>
        let! iso := isoformat w in
        let format :=
          match w with
          | VDatetime dt =>
              match tzinfo (dt_time dt) with
              | Some _ => "timestamptz"
              | None => "timestamp"
              end
          | VTime _ => "time"
          | _ => "date"
          end in
        Ok ("'" +:+ iso +:+ "'::" +:+ format)
    end in
  _ensure_bytes c (VStr rv).

Definition Decimal_getquoted (w : Value) (c : option Connection)
  : Result string :=
  match w with
  | VDecimal d =>
      if is_finite d then
        let! value := py_str w in
        _ensure_bytes c (VStr (sign_space value))
      else Ok "'NaN'::numeric"
  | _ => Raise AttributeError "is_finite"
  end.

Definition Float_getquoted (w : Value) (c : option Connection)
  : Result string :=
  let! n := py_float w in
  if isnan n then Ok "'NaN'::float"
  else if isinf n then
    if float_gt_zero n then Ok "'Infinity'::float"
    else Ok "'-Infinity'::float"
  else
    let! value := py_repr w in
    _ensure_bytes c (VStr (sign_space value)).

Definition Int_getquoted (w : Value) (c : option Connection) : Result string :=
  let! value := py_str w in
  _ensure_bytes c (VStr (sign_space value)).

Definition Long_getquoted (w : Value) (c : option Connection) : Result string :=
  let! value := py_str w in
  _ensure_bytes c (VStr (sign_space value)).

(** The escape call of [QuotedString.getquoted] (lines 222 to 230): the
    destination buffer after the call.  The connection-aware function also
    fills the error cell [err], which is not read afterwards. *)
Definition QuotedString_escape (string : String.string)
    (c : option Connection) : String.string :=
  let length := Z.of_nat (String.length string) in
  let to := create_string_buffer (String nul EmptyString) (length * 2 + 1) in
  if conn_bound c && (0x080104 <=? PG_VERSION rt)%Z then
    match c with
    | Some conn =>
        let '(to', err) :=
          PQescapeStringConn rt (_pgconn conn) to string length in
        to'
    | None => PQescapeString rt to string length
    end
  else PQescapeString rt to string length.

Definition QuotedString_getquoted (w : Value) (c : option Connection)
  : Result string :=
  let! string := _ensure_bytes c w in
  let to := QuotedString_escape string c in
  if conn_equote c
  then Ok ("E'" +:+ buffer_value to +:+ "'")
  else Ok ("'" +:+ buffer_value to +:+ "'").

(** *** The registry and [adapt] *)

(** [adapters[key]]: a missing key raises [KeyError]. *)
Definition registry_get (adapters : Registry) (key : PyType * Proto)
  : Result Formatter :=
  match adapters !! key with
  | Some cls => Ok cls
  | None => Raise KeyError "key"
  end.

(** [cls(value)]: [_BaseAdapter.__init__] stores the value and leaves
    [_conn] unset. *)
Definition instantiate (cls : Formatter) (value : Value) : Result Value :=
  Ok (VAdapter cls value None).

(** [getattr(value, '__conform__', None)].  [Binary] defines [__conform__],
    which returns the instance itself. *)
Definition getattr_conform (value : Value) : option (Proto -> Result Value) :=
  match value with
  | VAdapter Binary _ _ => Some (fun _ => Ok value)
  | VObject _ conform => conform
  | VClass _ conform => conform
  | _ => None
  end.

(** [adapters[(t, proto)](value)]. *)
Definition lookup_and_call (adapters : Registry) (t : PyType) (proto : Proto)
    (value : Value) : Result Value :=
  let! cls := registry_get adapters (t, proto) in
  instantiate cls value.

(** The loop over [obj_type.mro()[1:]]: [Some r] when an iteration leaves
    the function with [r], [None] when the loop runs to its end. *)
Fixpoint adapt_loop (adapters : Registry) (subtypes : list PyType)
    (proto : Proto) (value : Value) : option (Result Value) :=
  match subtypes with
  | [] => None
  | subtype :: rest =>
      match lookup_and_call adapters subtype proto value with
      | Raise KeyError _ => adapt_loop adapters rest proto value
      | r => Some r
      end
  end.

(** [adapt(value, proto)].  The parameter [alt] of the source is unused. *)
Definition adapt (adapters : Registry) (value : Value) (proto : Proto)
  : Result Value :=
  match getattr_conform value with
  | Some conform => conform proto
  | None =>
      let obj_type := type_of value in
      match lookup_and_call adapters obj_type proto value with
      | Raise KeyError _ =>
          let! order := call_mro obj_type in
          match adapt_loop adapters (tail order) proto value with
          | Some r => r
          | None =>
              Raise ProgrammingError
                ("can't adapt type '" +:+ type_name obj_type +:+ "'")
          end
      | r => r
      end
  end.

(** *** [_getquoted], [List.getquoted] and the method call [getquoted] *)

(** Which classes define [prepare]. *)
Definition has_prepare (cls : Formatter) : bool :=
  match cls with
  | AsIs | Binary | List | QuotedString => true
  | AppFormatter id => formatter_has_prepare rt id
  | _ => false
  end.

(** [adapter.prepare(conn)]: the object after the call.  On a class object
    the attribute is an unbound method, whose call raises [TypeError]. *)
Definition call_prepare (adapter : Value) (conn : option Connection)
  : Result Value :=
  match adapter with
  | VAdapter cls w c =>
      if has_prepare cls then Ok (VAdapter cls w conn)
      else Raise AttributeError "prepare"
  | VClass (TFormatter cls) _ =>
      if has_prepare cls
      then Raise TypeError "unbound method prepare() must be called with an instance"
      else Raise AttributeError "prepare"
  | _ => Raise AttributeError "prepare"
  end.

(** [_getquoted(param, conn)], given the method call [adapter.getquoted()]. *)
Definition _getquoted_with (adapters : Registry)
    (call_getquoted : Value -> Result Value)
    (param : Value) (conn : option Connection) : Result Value :=
  match param with
  | VNone => Ok (VStr "NULL")
  | _ =>
      let! adapter := adapt adapters param proto_ISQLQuote in
      match call_prepare adapter conn with
      | Ok adapter' => call_getquoted adapter'
      | Raise AttributeError _ => call_getquoted adapter
      | Raise e msg => Raise e msg
      end
  end.

(** [List.getquoted], given [_getquoted]. *)
Definition List_getquoted_with
    (_getquoted : Value -> option Connection -> Result Value)
    (w : Value) (c : option Connection) : Result string :=
  let! length := py_len w in
  if (length =? 0)%Z then Ok "'{}'"
  else
    let! items := py_items w in
    let! quoted := mapM (fun obj => _getquoted obj c) items in
    let! joined := bytes_join ", " quoted in
    Ok ("ARRAY[" +:+ joined +:+ "]").

(** The method call [obj.getquoted()].  [depth] is the recursion depth left
    to the interpreter, counted in nested non-empty sequences; exceeding it
    is the interpreter's [RuntimeError]. *)
Fixpoint getquoted (adapters : Registry) (depth : nat) (obj : Value)
  : Result Value :=
  match obj with
  | VAdapter cls w c =>
      match cls with
      | _BaseAdapter => Raise AttributeError "getquoted"
      | ISQLQuote => Ok VNone
      | AsIs => let! b := AsIs_getquoted w c in Ok (VStr b)
      | Binary => let! b := Binary_getquoted w c in Ok (VStr b)
      | Boolean => let! b := Boolean_getquoted w in Ok (VStr b)
      | DateTime => let! b := DateTime_getquoted w c in Ok (VStr b)
      | Decimal => let! b := Decimal_getquoted w c in Ok (VStr b)
      | Float => let! b := Float_getquoted w c in Ok (VStr b)
      | Int => let! b := Int_getquoted w c in Ok (VStr b)
      | Long => let! b := Long_getquoted w c in Ok (VStr b)
      | QuotedString => let! b := QuotedString_getquoted w c in Ok (VStr b)
      | List =>
          let! b :=
            List_getquoted_with
              (fun param conn =>
                 match depth with
                 | O => Raise RuntimeError "maximum recursion depth exceeded"
                 | S depth' =>
                     _getquoted_with adapters (getquoted adapters depth')
                       param conn
                 end)
              w c in
          Ok (VStr b)
      | AppFormatter id => formatter_getquoted rt id w c
      end
  | VClass (TFormatter _BaseAdapter) _ => Raise AttributeError "getquoted"
  | VClass (TFormatter _) _ =>
      Raise TypeError "unbound method getquoted() must be called with an instance"
  | _ => Raise AttributeError "getquoted"
  end.

(** [_getquoted(param, conn)]. *)
Definition _getquoted (adapters : Registry) (depth : nat)
    (param : Value) (conn : option Connection) : Result Value :=
  _getquoted_with adapters (getquoted adapters depth) param conn.

(** [List.getquoted]. *)
Definition List_getquoted (adapters : Registry) (depth : nat)
    (w : Value) (c : option Connection) : Result string :=
  List_getquoted_with
    (fun param conn =>
       match depth with
       | O => Raise RuntimeError "maximum recursion depth exceeded"
       | S depth' => _getquoted adapters depth' param conn
       end)
    w c.

(** *** Temporal construction helpers *)

Definition Date (year month day : Z) : Result Value :=
  let! date := datetime_date year month day in
  instantiate DateTime (VDate date).

Definition DateFromTicks (ticks : Value) : Result Value :=
  let! dt := fromtimestamp rt ticks None in
  instantiate DateTime (VDate (datetime_get_date dt)).

Definition Time (hour minutes seconds : Z) (tzinfo : option Tz)
  : Result Value :=
  let! time := datetime_time hour minutes seconds tzinfo in
  instantiate DateTime (VTime time).

Definition TimeFromTicks (ticks : Value) : Result Value :=
  let! dt := fromtimestamp rt ticks None in
  instantiate DateTime (VTime (datetime_get_time dt)).

Definition Timestamp (year month day hour minutes seconds : Z)
    (tzinfo : option Tz) : Result Value :=
  let! dt := datetime_datetime year month day hour minutes seconds tzinfo in
  instantiate DateTime (VDatetime dt).

Definition TimestampFromTicks (ticks : Value) : Result Value :=
  let! dt := fromtimestamp rt ticks (Some TZ_LOCAL) in
  instantiate DateTime (VDatetime dt).

(** *** The built-in table and the registry after import *)

Definition built_in_adapters : list (PyType * Formatter) :=
  [ (TBuiltin t_bool, Boolean);
    (TBuiltin t_list, List);
    (TBuiltin t_bytearray, Binary);
    (TBuiltin t_float, Float);
    (TBuiltin t_date, DateTime);
    (TBuiltin t_datetime, DateTime);
    (TBuiltin t_time, DateTime);
    (TBuiltin t_timedelta, DateTime);
    (TBuiltin t_Decimal, Decimal) ]
  ++ (if version_lt (version_info rt) (3, 0)%Z
      then [ (TBuiltin t_buffer, Binary);
             (TBuiltin t_int, Int);
             (TBuiltin t_long, Long);
             (TBuiltin t_str, QuotedString);
             (TBuiltin t_unicode, QuotedString) ]
      else [ (TBuiltin t_int, Long);
             (TBuiltin t_str, QuotedString) ])
  ++ (if version_lt (2, 6)%Z (version_info rt)
      then [ (TBuiltin t_memoryview, Binary) ]
      else []).

(** The loop [for k, v in built_in_adapters.iteritems()] on the empty
    dict. *)
Definition adapters_initial : Registry :=
  foldl (fun adapters kv => <[(kv.1, proto_ISQLQuote) := kv.2]> adapters)
        ∅ built_in_adapters.

(** Modelled from the spec: [extensions.register_adapter] is not part of
    the module; the specification says that registration "simply
    overwrites/inserts the (type, capability) entry". *)
Definition register_adapter (typ : PyType) (proto : Proto) (cls : Formatter)
    (adapters : Registry) : Registry :=
  <[(typ, proto) := cls]> adapters.

(** The two formatter classes of [extensions] that [__init__.py]
    registers. *)
Definition SQL_IN : Formatter := AppFormatter 1.
Definition NoneAdapter : Formatter := AppFormatter 2.

(** The registry once the package is imported ([__init__.py], lines 19 and
    20). *)
Definition adapters_at_import : Registry :=
  register_adapter (TBuiltin t_NoneType) proto_ISQLQuote NoneAdapter
    (register_adapter (TBuiltin t_tuple) proto_ISQLQuote SQL_IN
       adapters_initial).

End Adapters.

(** ** A sample runtime

    A concrete interpreter and native library, used to run the module on
    examples: CPython 2.7 against a 9.1 client library, a class table with
    two application classes, the renderings of a few floats, the
    to-scientific-string rendering of decimals, an ASCII codec, and escape
    functions that double quotes and backslashes. *)
Module Sample.

Definition app_class_name (id : positive) : string :=
  match id with
  | 1%positive => "Point"
  | 2%positive => "Counter"
  | 3%positive => "Score"
  | _ => "Other"
  end.

(** [class Point(object)], [class Counter(int)] and
    [class Score(Point, Counter)]. *)
Definition app_class_bases (id : positive) : list PyType :=
  match id with
  | 2%positive => [TBuiltin t_int; TBuiltin t_object]
  | 3%positive => [TClass 1; TClass 2; TBuiltin t_int; TBuiltin t_object]
  | _ => [TBuiltin t_object]
  end.

Definition app_formatter_name (id : positive) : string :=
  match id with
  | 1%positive => "SQL_IN"
  | 2%positive => "NoneAdapter"
  | _ => "Formatter"
  end.

Definition app_formatter_getquoted (id : positive) (w : Value)
    (c : option Connection) : Result Value :=
  match id with
  | 2%positive => Ok (VStr "NULL")
  | _ => Raise TypeError "not available"
  end.

Definition zeros (n : Z) : string :=
  string_of_list_ascii (repeat "0"%char (Z.to_nat n)).

(** [Decimal.__str__] with the default context. *)
Definition decimal_str (d : PyDecimal) : string :=
  let sign := if dec_sign d then "-" else "" in
  match dec_exp d with
  | ExpF => sign +:+ "Infinity"
  | Expn => sign +:+ "NaN"
  | ExpN => sign +:+ "sNaN"
  | ExpInt e =>
      let int := str_of_Z (Z.of_N (dec_int d)) in
      let len := Z.of_nat (String.length int) in
      let leftdigits := (e + len)%Z in
      let dotplace :=
        if ((e <=? 0) && (-6 <? leftdigits))%Z then leftdigits else 1%Z in
      let body :=
        if (dotplace <=? 0)%Z then "0." +:+ zeros (- dotplace) +:+ int
        else if (len <=? dotplace)%Z then int +:+ zeros (dotplace - len)
        else String.substring 0 (Z.to_nat dotplace) int +:+ "." +:+
             String.substring (Z.to_nat dotplace) (Z.to_nat (len - dotplace))
               int in
      let exp :=
        if (leftdigits =? dotplace)%Z then ""
        else "E" +:+ (if (0 <=? leftdigits - dotplace)%Z then "+" else "")
                 +:+ str_of_Z (leftdigits - dotplace) in
      sign +:+ body +:+ exp
  end.

Definition sample_str (v : Value) : Result string :=
  match v with
  | VNone => Ok "None"
  | VBool b => Ok (if b then "True" else "False")
  | VDecimal d => Ok (decimal_str d)
  | _ => Raise TypeError "not available"
  end.

(** [repr] of the floats 0.0, -0.0, 2.0, -1.5 and 0.25. *)
Definition sample_repr (v : Value) : Result string :=
  match v with
  | VFloat (S754_zero false) => Ok "0.0"
  | VFloat (S754_zero true) => Ok "-0.0"
  | VFloat (S754_finite false 1 1) => Ok "2.0"
  | VFloat (S754_finite true 3 (-1)) => Ok "-1.5"
  | VFloat (S754_finite false 1 (-2)) => Ok "0.25"
  | _ => Raise TypeError "not available"
  end.

Definition sample_float (v : Value) : Result spec_float :=
  Raise TypeError "not available".

Fixpoint ascii_encode (u : list N) : Result string :=
  match u with
  | [] => Ok EmptyString
  | c :: rest =>
      if (c <? 128)%N then
        let! s := ascii_encode rest in
        Ok (String (ascii_of_N c) s)
      else Raise UnicodeError "ordinal not in range(128)"
  end.

Fixpoint escape (s : string) : string :=
  match s with
  | EmptyString => EmptyString
  | String c rest =>
      if Ascii.eqb c "'"%char then String "'" (String "'" (escape rest))
      else if Ascii.eqb c "\"%char then String "\" (String "\" (escape rest))
      else String c (escape rest)
  end.

Fixpoint has_high_byte (s : string) : bool :=
  match s with
  | EmptyString => false
  | String c rest => (128 <=? N_of_ascii c)%N || has_high_byte rest
  end.

(** The escaped text and the terminating zero byte are written at the
    start of [to]; the error cell is set when the input is not valid in the
    connection's encoding. *)
Definition sample_escape_string (to from : string) (length : Z) : string :=
  let out := escape (String.substring 0 (Z.to_nat length) from)
             +:+ String nul EmptyString in
  out +:+ String.substring (String.length out)
            (String.length to - String.length out) to.

Definition sample_escape_string_conn (pgconn : positive) (to from : string)
    (length : Z) : string * Z :=
  (sample_escape_string to from length,
   if has_high_byte from then 1%Z else 0%Z).

(** The native function takes a buffer; anything else is refused at the
    call. *)
Definition sample_escape_bytea (from : Value) (from_length : Z)
  : Result (string * Z) :=
  match from with
  | VStr s | VBytearray s | VBuffer s | VMemoryview s =>
      let out := escape (String.substring 0 (Z.to_nat from_length) s) in
      Ok (out +:+ String nul EmptyString,
          Z.of_nat (String.length out) + 1)%Z
  | _ => Raise ArgumentError "argument 1: wrong type"
  end.

(** Escape functions that can be told from the identity: whatever they
    are given, they answer with the text [ESCAPED]. *)
Definition marked : string := "ESCAPED" +:+ String nul EmptyString.

Definition marking_escape_string (to from : string) (length : Z) : string :=
  marked.

Definition marking_escape_string_conn (pgconn : positive) (to from : string)
    (length : Z) : string * Z :=
  (marked, 0%Z).

Definition marking_escape_bytea (from : Value) (from_length : Z)
  : Result (string * Z) :=
  Ok (marked, 8%Z).

(** Decimal digits padded with zeros on the left. *)
Definition zero_padded (width : nat) (n : Z) : string :=
  let digits := str_of_Z n in
  zeros (Z.of_nat width - Z.of_nat (String.length digits)) +:+ digits.

Definition iso_date (d : PyDate) : string :=
  zero_padded 4 (year d) +:+ "-" +:+ zero_padded 2 (month d) +:+ "-"
  +:+ zero_padded 2 (day d).

Definition iso_time (t : PyTime) : string :=
  zero_padded 2 (hour t) +:+ ":" +:+ zero_padded 2 (minute t) +:+ ":"
  +:+ zero_padded 2 (second t)
  +:+ (if (microsecond t =? 0)%Z then ""
       else "." +:+ zero_padded 6 (microsecond t)).

Definition iso_offset (minutes : Z) : string :=
  (if (minutes <? 0)%Z then "-" else "+")
  +:+ zero_padded 2 (Z.abs minutes / 60) +:+ ":"
  +:+ zero_padded 2 (Z.abs minutes mod 60).

(** [isoformat()].  The local time zone works out its offset from the date
    it is asked about: asked by a [time], which has none, it raises
    [AttributeError]; asked by a [datetime] it answers with offset 0
    here. *)
Definition sample_isoformat (v : Value) : Result string :=
  match v with
  | VDate d => Ok (iso_date d)
  | VTime t =>
      match tzinfo t with
      | None => Ok (iso_time t)
      | Some (TzOffset minutes) => Ok (iso_time t +:+ iso_offset minutes)
      | Some TZ_LOCAL =>
          Raise AttributeError "'NoneType' object has no attribute 'year'"
      end
  | VDatetime dt =>
      Ok (iso_date (dt_date dt) +:+ "T" +:+ iso_time (dt_time dt)
          +:+ match tzinfo (dt_time dt) with
              | None => ""
              | Some (TzOffset minutes) => iso_offset minutes
              | Some TZ_LOCAL => iso_offset 0
              end)
  | _ => Raise AttributeError "isoformat"
  end.

Definition sample_fromtimestamp (ticks : Value) (tz : option Tz)
  : Result PyDatetime :=
  match ticks with
  | VInt 0 | VLong 0 =>
      Ok {| dt_date := {| year := 1970; month := 1; day := 1 |};
            dt_time := {| hour := 0; minute := 0; second := 0;
                          microsecond := 0; tzinfo := tz |} |}
  | VInt _ | VLong _ | VFloat _ => Raise ValueError "timestamp out of range"
  | _ => Raise TypeError "a float is required"
  end.

Definition runtime : Runtime := {|
  version_info := (2, 7)%Z;
  PG_VERSION := 0x090100%Z;
  class_name := app_class_name;
  class_bases := app_class_bases;
  formatter_name := app_formatter_name;
  formatter_bases := fun _ => [TBuiltin t_object];
  formatter_has_prepare := fun id => Pos.eqb id 1;
  formatter_getquoted := app_formatter_getquoted;
  builtin_str := sample_str;
  builtin_repr := sample_repr;
  builtin_float := sample_float;
  builtin_isoformat := sample_isoformat;
  default_encoding := "utf-8";
  unicode_encode := fun _ u => ascii_encode u;
  PQescapeStringConn := sample_escape_string_conn;
  PQescapeString := sample_escape_string;
  PQescapeByteaConn := fun _ from n => sample_escape_bytea from n;
  PQescapeBytea := sample_escape_bytea;
  fromtimestamp := sample_fromtimestamp
|}.

(** The same interpreter against a native library with the marking escape
    functions. *)
Definition marking_runtime : Runtime := {|
  version_info := (2, 7)%Z;
  PG_VERSION := 0x090100%Z;
  class_name := app_class_name;
  class_bases := app_class_bases;
  formatter_name := app_formatter_name;
  formatter_bases := fun _ => [TBuiltin t_object];
  formatter_has_prepare := fun id => Pos.eqb id 1;
  formatter_getquoted := app_formatter_getquoted;
  builtin_str := sample_str;
  builtin_repr := sample_repr;
  builtin_float := sample_float;
  builtin_isoformat := sample_isoformat;
  default_encoding := "utf-8";
  unicode_encode := fun _ u => ascii_encode u;
  PQescapeStringConn := marking_escape_string_conn;
  PQescapeString := marking_escape_string;
  PQescapeByteaConn := fun _ from n => marking_escape_bytea from n;
  PQescapeBytea := marking_escape_bytea;
  fromtimestamp := sample_fromtimestamp
|}.

(** The double nearest to one tenth, and its [repr] on Python 2.6, which
    prints 17 significant digits. *)
Definition one_tenth : spec_float :=
  S754_finite false 7205759403792794 (-56).

Definition repr_2_6 (v : Value) : Result string :=
  match v with
  | VFloat (S754_finite false 7205759403792794 (-56)) =>
      Ok "0.10000000000000001"
  | _ => sample_repr v
  end.

(** A Python 2.6 against the same native library. *)
Definition runtime_2_6 : Runtime := {|
  version_info := (2, 6)%Z;
  PG_VERSION := 0x090100%Z;
  class_name := app_class_name;
  class_bases := app_class_bases;
  formatter_name := app_formatter_name;
  formatter_bases := fun _ => [TBuiltin t_object];
  formatter_has_prepare := fun id => Pos.eqb id 1;
  formatter_getquoted := app_formatter_getquoted;
  builtin_str := sample_str;
  builtin_repr := repr_2_6;
  builtin_float := sample_float;
  builtin_isoformat := sample_isoformat;
  default_encoding := "utf-8";
  unicode_encode := fun _ u => ascii_encode u;
  PQescapeStringConn := sample_escape_string_conn;
  PQescapeString := sample_escape_string;
  PQescapeByteaConn := fun _ from n => sample_escape_bytea from n;
  PQescapeBytea := sample_escape_bytea;
  fromtimestamp := sample_fromtimestamp
|}.

(** The class objects [int] and [Binary]. *)
Definition int_class : Value := VClass (TBuiltin t_int) None.

Definition unbound_conform (proto : Proto) : Result Value :=
  Raise TypeError "unbound method __conform__() must be called with Binary instance as first argument".

Definition Binary_class : Value :=
  VClass (TFormatter Binary) (Some unbound_conform).

(** A connection in extended-escape mode and one in standard mode. *)
Definition conn_e : Connection :=
  {| _pgconn := 1; _equote := true; conn_encoding := "latin1" |}.

Definition conn_std : Connection :=
  {| _pgconn := 2; _equote := false; conn_encoding := "utf-8" |}.

(** The registry once the package is imported on this runtime. *)
Definition adapters : Registry := adapters_at_import runtime.

(** An application object whose [__conform__] hook answers with an [AsIs]
    formatter. *)
Definition now_conform (proto : Proto) : Result Value :=
  Ok (VAdapter AsIs (VStr "now()") None).

Definition now : Value := VObject 1 (Some now_conform).

End Sample.

(** ** Further definitions used by the properties *)

(** The property [_BaseAdapter.adapted] (lines 24 to 26): the wrapped
    object. *)
Definition adapted (obj : Value) : Result Value :=
  match obj with
  | VAdapter _ w _ => Ok w
  | _ => Raise AttributeError "adapted"
  end.

(** The classes declared in [adapters.py], whose constructor is
    [_BaseAdapter.__init__]. *)
Definition is_module_class (cls : Formatter) : bool :=
  match cls with
  | AppFormatter _ => false
  | _ => true
  end.

(** The double that the decimal text of the fraction [num/den] reads back
    as, for [num] and [den] that are doubles themselves: the quotient
    rounded to the nearest double. *)
Definition decimal_fraction (num den : Z) : spec_float :=
  SFdiv 53 1024 (binary_normalize 53 1024 num 0 false)
    (binary_normalize 53 1024 den 0 false).

(** The literal of a temporal value, given the outcome of its
    [isoformat()] and the name of the SQL type. *)
Definition temporal_literal (iso : Result string) (format : string)
  : Result Value :=
  let! iso := iso in
  Ok (VStr ("'" +:+ iso +:+ "'::" +:+ format)).

(** Whether a byte string contains a zero byte. *)
Fixpoint has_nul (s : string) : bool :=
  match s with
  | EmptyString => false
  | String c rest => Ascii.eqb c nul || has_nul rest
  end.

(** The formatter class that lines 271 to 294 of [adapters.py] and lines 19
    and 20 of [__init__.py] name for the type of a built-in value on
    Python 2.7. *)
Definition table_2_7 (v : Value) : option Formatter :=
  match v with
  | VNone => Some NoneAdapter
  | VBool _ => Some Boolean
  | VInt _ => Some Int
  | VLong _ => Some Long
  | VFloat _ => Some Float
  | VDecimal _ => Some Decimal
  | VStr _ | VUnicode _ => Some QuotedString
  | VBytearray _ | VBuffer _ | VMemoryview _ => Some Binary
  | VList _ => Some List
  | VTuple _ => Some SQL_IN
  | VDate _ | VTime _ | VDatetime _ | VTimedelta _ => Some DateTime
  | VAdapter _ _ _ | VObject _ _ | VClass _ _ => None
  end.

(** * Properties *)

(** Case analysis on every range test of the goal. *)
Ltac split_range_tests :=
  repeat match goal with
         | |- context [(?a <=? ?b)%Z] => destruct (Z.leb_spec a b); simpl
         end.

(** ** Renderings and the sign rule *)

Lemma bind_Ok {A B : Type} (a : A) (k : A -> Result B) :
  (let! x := Ok a in k x) = k a.
Proof. reflexivity. Qed.

Lemma startswith_minus_true (value : string) :
  startswith_minus value = true <-> exists rest, value = String "-" rest.
Proof.
  unfold startswith_minus. split.
  - destruct value as [|ch rest]; [discriminate|].
    unfold String.prefix.
    destruct (ascii_dec "-"%char ch) as [<-|]; [|discriminate].
    intros _. by exists rest.
  - intros [rest ->]. unfold String.prefix.
    destruct (ascii_dec "-"%char "-"%char) as [_|ne]; [|by destruct ne].
    by destruct rest.
Qed.

Lemma sign_space_minus (rest : string) :
  sign_space (String "-" rest) = String " " (String "-" rest).
Proof.
  unfold sign_space.
  destruct (startswith_minus (String "-" rest)) eqn:E; [reflexivity|].
  assert (startswith_minus (String "-" rest) = true) as E'
    by (apply startswith_minus_true; eauto).
  congruence.
Qed.

Lemma sign_space_other (value : string) :
  startswith_minus value = false -> sign_space value = value.
Proof. unfold sign_space. by intros ->. Qed.

(** The decimal rendering of a negative integer begins with the minus
    sign. *)
Lemma str_of_Z_negative (n : Z) :
  (n < 0)%Z -> exists digits, str_of_Z n = String "-" digits.
Proof.
  destruct n as [|p|p]; [lia|lia|]. intros _.
  unfold str_of_Z. simpl. eauto.
Qed.

Lemma string_of_uint_no_minus (d : Decimal.uint) :
  startswith_minus (NilZero.string_of_uint d) = false.
Proof. destruct d; reflexivity. Qed.

(** The decimal rendering of a non-negative integer does not. *)
Lemma str_of_Z_nonnegative (n : Z) :
  (0 <= n)%Z -> startswith_minus (str_of_Z n) = false.
Proof.
  destruct n as [|p|p]; [reflexivity| |lia]. intros _.
  unfold str_of_Z. simpl. apply string_of_uint_no_minus.
Qed.

(** A byte string passes through [_ensure_bytes] unchanged, with or
    without a connection. *)
Lemma _ensure_bytes_str (rt : Runtime) (c : option Connection) (s : string) :
  _ensure_bytes rt c (VStr s) = Ok s.
Proof. by destruct c. Qed.

(** ** Numeric formatters *)

(** C10: the [Int] and [Long] formatters are extensionally equal: for every
    wrapped value and every connection binding, bound or unbound, their
    [getquoted] methods give the same outcome, called directly or through
    the method dispatch. *)
Theorem Int_Long_getquoted_equal (rt : Runtime) (adapters : Registry)
    (depth : nat) (w : Value) (c : option Connection) :
  Int_getquoted rt w c = Long_getquoted rt w c
  /\ getquoted rt adapters depth (VAdapter Int w c)
     = getquoted rt adapters depth (VAdapter Long w c).
Proof.
  assert (Int_getquoted rt w c = Long_getquoted rt w c) as E.
  { unfold Int_getquoted, Long_getquoted.
    destruct (py_str rt w) as [value|e msg]; reflexivity. }
  split; [exact E|].
  destruct depth; simpl; rewrite E; reflexivity.
Qed.

(** C2: a negative integer is rendered with a leading minus sign and its
    literal is a space, the minus sign and the digits; a float or decimal
    that the formatter renders from its text ([repr] of a float that is
    neither NaN nor infinite, [str] of a finite decimal) and whose text
    begins with the minus sign gets a literal whose first character is a
    space and whose second is the minus sign.  A non-negative integer, and
    a float or decimal whose text does not begin with the minus sign, is
    emitted as its text, with nothing prepended. *)
Theorem negative_literal_sign_space (rt : Runtime) (c : option Connection) :
  (forall n : Z, (n < 0)%Z ->
     exists digits,
       str_of_Z n = String "-" digits
       /\ Int_getquoted rt (VInt n) c = Ok (String " " (String "-" digits))
       /\ Long_getquoted rt (VLong n) c = Ok (String " " (String "-" digits)))
  /\ (forall n : Z, (0 <= n)%Z ->
        Int_getquoted rt (VInt n) c = Ok (str_of_Z n)
        /\ Long_getquoted rt (VLong n) c = Ok (str_of_Z n)
        /\ startswith_minus (str_of_Z n) = false)
  /\ (forall f value,
        isnan f = false -> isinf f = false ->
        py_repr rt (VFloat f) = Ok value ->
        (forall rest, value = String "-" rest ->
           Float_getquoted rt (VFloat f) c
           = Ok (String " " (String "-" rest)))
        /\ (startswith_minus value = false ->
            Float_getquoted rt (VFloat f) c = Ok value))
  /\ (forall d value,
        is_finite d = true ->
        py_str rt (VDecimal d) = Ok value ->
        (forall rest, value = String "-" rest ->
           Decimal_getquoted rt (VDecimal d) c
           = Ok (String " " (String "-" rest)))
        /\ (startswith_minus value = false ->
            Decimal_getquoted rt (VDecimal d) c = Ok value)).
Proof.
  split; [|split; [|split]].
  - intros n Hn. destruct (str_of_Z_negative n Hn) as [digits E].
    exists digits.
    unfold Int_getquoted, Long_getquoted, py_str.
    rewrite !bind_Ok, E, sign_space_minus, _ensure_bytes_str. auto.
  - intros n Hn. pose proof (str_of_Z_nonnegative n Hn) as E.
    unfold Int_getquoted, Long_getquoted, py_str.
    rewrite !bind_Ok, sign_space_other, _ensure_bytes_str by done. auto.
  - intros f value Hnan Hinf Hrepr. unfold Float_getquoted, py_float.
    rewrite bind_Ok, Hnan, Hinf, Hrepr, bind_Ok. split.
    + intros rest ->. rewrite sign_space_minus. apply _ensure_bytes_str.
    + intros E. rewrite sign_space_other by done. apply _ensure_bytes_str.
  - intros d value Hfin Hstr. unfold Decimal_getquoted.
    rewrite Hfin, Hstr, bind_Ok. split.
    + intros rest ->. rewrite sign_space_minus. apply _ensure_bytes_str.
    + intros E. rewrite sign_space_other by done. apply _ensure_bytes_str.
Qed.

(** C4, as the code behaves: [Float.getquoted] maps NaN to ['NaN'::float],
    positive infinity to ['Infinity'::float] and negative infinity to
    ['-Infinity'::float], whatever the interpreter's [repr] prints; for any
    other float it emits the text that the interpreter's [repr] gives for
    the wrapped value, with a space put before a leading minus sign, and
    nothing else is done to the text: [_ensure_bytes] returns a byte string
    as it is, and the literal depends neither on the escape functions of
    the native library nor on the connection. *)
Theorem Float_getquoted_cases (rt : Runtime) (w : Value)
    (c : option Connection) :
  (py_float rt w = Ok S754_nan -> Float_getquoted rt w c = Ok "'NaN'::float")
  /\ (py_float rt w = Ok (S754_infinity false) ->
      Float_getquoted rt w c = Ok "'Infinity'::float")
  /\ (py_float rt w = Ok (S754_infinity true) ->
      Float_getquoted rt w c = Ok "'-Infinity'::float")
  /\ (forall n value,
        py_float rt w = Ok n -> isnan n = false -> isinf n = false ->
        py_repr rt w = Ok value ->
        Float_getquoted rt w c
        = Ok (if startswith_minus value then String " " value else value))
  /\ (forall rt' c',
        builtin_float rt' = builtin_float rt ->
        builtin_repr rt' = builtin_repr rt ->
        Float_getquoted rt' w c' = Float_getquoted rt w c).
Proof.
  unfold Float_getquoted. split; [|split; [|split; [|split]]].
  - by intros ->.
  - by intros ->.
  - by intros ->.
  - intros n value -> Hnan Hinf ->. rewrite bind_Ok, Hnan, Hinf, bind_Ok.
    apply _ensure_bytes_str.
  - intros rt' c' Hfloat Hrepr. unfold py_float, py_repr.
    rewrite Hfloat, Hrepr.
    destruct (match w with VFloat f => Ok f | _ => builtin_float rt w end)
      as [n|]; [|reflexivity]. simpl.
    destruct (isnan n); [reflexivity|]. destruct (isinf n); [reflexivity|].
    destruct (builtin_repr rt w) as [value|]; [|reflexivity]. simpl.
    by rewrite !_ensure_bytes_str.
Qed.

(** C8, as the code behaves: [Decimal.getquoted] emits, for a finite
    decimal, the text that [str] gives for it, with a space put before a
    leading minus sign, and nothing else is done to the text:
    [_ensure_bytes] returns a byte string as it is, and the literal depends
    neither on the escape functions of the native library nor on the
    connection; for every decimal that is not finite it emits
    ['NaN'::numeric]. *)
Theorem Decimal_getquoted_cases (rt : Runtime) (d : PyDecimal)
    (c : option Connection) :
  (forall value,
     is_finite d = true -> py_str rt (VDecimal d) = Ok value ->
     Decimal_getquoted rt (VDecimal d) c
     = Ok (if startswith_minus value then String " " value else value))
  /\ (is_finite d = false ->
      Decimal_getquoted rt (VDecimal d) c = Ok "'NaN'::numeric")
  /\ (forall rt' c',
        builtin_str rt' = builtin_str rt ->
        Decimal_getquoted rt' (VDecimal d) c'
        = Decimal_getquoted rt (VDecimal d) c).
Proof.
  unfold Decimal_getquoted. split; [|split].
  - intros value -> ->. rewrite bind_Ok. apply _ensure_bytes_str.
  - by intros ->.
  - intros rt' c' Hstr. unfold py_str. rewrite Hstr.
    destruct (is_finite d); [|reflexivity].
    destruct (builtin_str rt (VDecimal d)) as [value|]; [|reflexivity].
    simpl. by rewrite !_ensure_bytes_str.
Qed.

(** The integers -5 and 7, the floats -1.5 and -0.0 (whose text begins
    with the minus sign) and the decimal -1.5 on the sample runtime, without
    a connection. *)
Lemma negative_literal_sign_space_witness :
  Int_getquoted Sample.runtime (VInt (-5)) None = Ok " -5"
  /\ Int_getquoted Sample.runtime (VInt 7) None = Ok "7"
  /\ Float_getquoted Sample.runtime (VFloat (S754_zero true)) None
     = Ok " -0.0"
  /\ Float_getquoted Sample.runtime (VFloat (S754_finite true 3 (-1))) None
     = Ok " -1.5"
  /\ Decimal_getquoted Sample.runtime
       (VDecimal {| dec_sign := true; dec_int := 15; dec_exp := ExpInt (-1) |})
       None
     = Ok " -1.5".
Proof.
  destruct (negative_literal_sign_space Sample.runtime None)
    as (Hneg & Hpos & Hfloat & Hdec).
  split; [|split; [|split; [|split]]].
  - destruct (Hneg (-5)%Z) as (digits & Hs & Hq & _); [lia|].
    vm_compute in Hs. injection Hs as <-. exact Hq.
  - destruct (Hpos 7%Z) as (Hq & _); [lia|]. exact Hq.
  - destruct (Hfloat (S754_zero true) "-0.0") as (Hq & _);
      [reflexivity|reflexivity|reflexivity|].
    exact (Hq "0.0" eq_refl).
  - destruct (Hfloat (S754_finite true 3 (-1)) "-1.5") as (Hq & _);
      [reflexivity|reflexivity|reflexivity|].
    exact (Hq "1.5" eq_refl).
  - destruct (Hdec {| dec_sign := true; dec_int := 15; dec_exp := ExpInt (-1) |}
                "-1.5") as (Hq & _); [reflexivity|reflexivity|].
    exact (Hq "1.5" eq_refl).
Defined.

(** NaN, the infinities and the floats -1.5 and 0.25 on the sample runtime,
    bound to a connection. *)
Lemma Float_getquoted_cases_witness :
  Float_getquoted Sample.runtime (VFloat S754_nan) (Some Sample.conn_std)
  = Ok "'NaN'::float"
  /\ Float_getquoted Sample.runtime (VFloat (S754_infinity false))
       (Some Sample.conn_std)
     = Ok "'Infinity'::float"
  /\ Float_getquoted Sample.runtime (VFloat (S754_infinity true))
       (Some Sample.conn_std)
     = Ok "'-Infinity'::float"
  /\ Float_getquoted Sample.runtime (VFloat (S754_finite true 3 (-1)))
       (Some Sample.conn_std)
     = Ok " -1.5"
  /\ Float_getquoted Sample.runtime (VFloat (S754_finite false 1 (-2)))
       (Some Sample.conn_std)
     = Ok "0.25".
Proof.
  split; [|split; [|split; [|split]]].
  - apply (Float_getquoted_cases Sample.runtime (VFloat S754_nan)).
    reflexivity.
  - apply (Float_getquoted_cases Sample.runtime
             (VFloat (S754_infinity false))).
    reflexivity.
  - apply (Float_getquoted_cases Sample.runtime
             (VFloat (S754_infinity true))).
    reflexivity.
  - destruct (Float_getquoted_cases Sample.runtime
                (VFloat (S754_finite true 3 (-1))) (Some Sample.conn_std))
      as (_ & _ & _ & Hfin & _).
    exact (Hfin (S754_finite true 3 (-1)) "-1.5"
             eq_refl eq_refl eq_refl eq_refl).
  - destruct (Float_getquoted_cases Sample.runtime
                (VFloat (S754_finite false 1 (-2))) (Some Sample.conn_std))
      as (_ & _ & _ & Hfin & _).
    exact (Hfin (S754_finite false 1 (-2)) "0.25"
             eq_refl eq_refl eq_refl eq_refl).
Defined.

(** With escape functions that answer [ESCAPED] for every input, a string
    comes out as ['ESCAPED'] and the float -1.5 as [ -1.5]: the text of a
    float does not go through the escape functions.  And on a Python 2.6,
    whose [repr] prints 17 significant digits, the literal of the double
    nearest to one tenth has 19 characters, although the text [0.1] reads
    back as the same double. *)
Lemma Float_literal_not_escaped :
  QuotedString_getquoted Sample.marking_runtime (VStr "-1.5")
    (Some Sample.conn_std)
  = Ok "'ESCAPED'"
  /\ Float_getquoted Sample.marking_runtime
       (VFloat (S754_finite true 3 (-1))) (Some Sample.conn_std)
     = Ok " -1.5"
  /\ Float_getquoted Sample.runtime_2_6 (VFloat Sample.one_tenth) None
     = Ok "0.10000000000000001"
  /\ decimal_fraction 1 10 = Sample.one_tenth.
Proof. repeat split; vm_compute; reflexivity. Qed.

(** The decimals -1.5, 1.5E-9 and -Infinity on the sample runtime. *)
Lemma Decimal_getquoted_cases_witness :
  Decimal_getquoted Sample.runtime
    (VDecimal {| dec_sign := true; dec_int := 15; dec_exp := ExpInt (-1) |})
    (Some Sample.conn_e)
  = Ok " -1.5"
  /\ Decimal_getquoted Sample.runtime
       (VDecimal
          {| dec_sign := false; dec_int := 15; dec_exp := ExpInt (-10) |})
       None
     = Ok "1.5E-9"
  /\ Decimal_getquoted Sample.runtime
       (VDecimal {| dec_sign := true; dec_int := 0; dec_exp := ExpF |}) None
     = Ok "'NaN'::numeric".
Proof.
  split; [|split].
  - destruct (Decimal_getquoted_cases Sample.runtime
                {| dec_sign := true; dec_int := 15; dec_exp := ExpInt (-1) |}
                (Some Sample.conn_e)) as (Hfin & _).
    exact (Hfin "-1.5" eq_refl eq_refl).
  - destruct (Decimal_getquoted_cases Sample.runtime
                {| dec_sign := false; dec_int := 15; dec_exp := ExpInt (-10) |}
                None) as (Hfin & _).
    exact (Hfin "1.5E-9" eq_refl eq_refl).
  - destruct (Decimal_getquoted_cases Sample.runtime
                {| dec_sign := true; dec_int := 0; dec_exp := ExpF |} None)
      as (_ & Hnan & _).
    apply Hnan. reflexivity.
Defined.

(** With escape functions that answer [ESCAPED] for every input, a string
    comes out as ['ESCAPED'] and the decimal -1.5 as [ -1.5]: the text of a
    decimal does not go through the escape functions. *)
Lemma Decimal_literal_not_escaped :
  QuotedString_getquoted Sample.marking_runtime (VStr "-1.5") None
  = Ok "'ESCAPED'"
  /\ Decimal_getquoted Sample.marking_runtime
       (VDecimal {| dec_sign := true; dec_int := 15; dec_exp := ExpInt (-1) |})
       None
     = Ok " -1.5".
Proof. split; vm_compute; reflexivity. Qed.

(** ** Dispatch *)

Lemma lookup_and_call_hit (adapters : Registry) (t : PyType) (proto : Proto)
    (value : Value) (cls : Formatter) :
  adapters !! (t, proto) = Some cls ->
  lookup_and_call adapters t proto value = Ok (VAdapter cls value None).
Proof. unfold lookup_and_call, registry_get. by intros ->. Qed.

Lemma lookup_and_call_miss (adapters : Registry) (t : PyType) (proto : Proto)
    (value : Value) :
  adapters !! (t, proto) = None ->
  lookup_and_call adapters t proto value = Raise KeyError "key".
Proof. unfold lookup_and_call, registry_get. by intros ->. Qed.

(** The loop skips the ancestors that have no entry and leaves at the
    first one that has. *)
Lemma adapt_loop_first_match (adapters : Registry) (pre post : list PyType)
    (t : PyType) (proto : Proto) (value : Value) (cls : Formatter) :
  Forall (fun u => adapters !! (u, proto) = None) pre ->
  adapters !! (t, proto) = Some cls ->
  adapt_loop adapters (pre ++ t :: post) proto value
  = Some (Ok (VAdapter cls value None)).
Proof.
  intros Hpre Hhit. induction Hpre as [|u pre Hu _ IH]; simpl.
  - by rewrite (lookup_and_call_hit _ _ _ _ _ Hhit).
  - by rewrite (lookup_and_call_miss _ _ _ _ Hu).
Qed.

(** With no entry for any ancestor the loop runs to its end. *)
Lemma adapt_loop_no_match (adapters : Registry) (subtypes : list PyType)
    (proto : Proto) (value : Value) :
  Forall (fun u => adapters !! (u, proto) = None) subtypes ->
  adapt_loop adapters subtypes proto value = None.
Proof.
  induction 1 as [|u rest Hu _ IH]; simpl; [reflexivity|].
  by rewrite (lookup_and_call_miss _ _ _ _ Hu).
Qed.

(** The method-resolution order of a class begins with the class. *)
Lemma mro_head (rt : Runtime) (t : PyType) :
  mro rt t = t :: tail (mro rt t).
Proof.
  destruct t as [[]|[]|]; try reflexivity.
  simpl. by destruct (python3 rt).
Qed.

(** Without a hook, an entry for the type of the value decides. *)
Lemma adapt_registered (rt : Runtime) (adapters : Registry) (value : Value)
    (proto : Proto) (cls : Formatter) :
  getattr_conform value = None ->
  adapters !! (type_of rt value, proto) = Some cls ->
  adapt rt adapters value proto = Ok (VAdapter cls value None).
Proof.
  unfold adapt. intros -> Hhit.
  by rewrite (lookup_and_call_hit _ _ _ _ _ Hhit).
Qed.

Lemma call_mro_instance (rt : Runtime) (t : PyType) :
  t <> TBuiltin t_type -> call_mro rt t = Ok (mro rt t).
Proof. destruct t as [[]|c|id]; done. Qed.

(** C1, as the code behaves: [adapt(value, proto)] first takes the value's
    [__conform__] hook, if it has one, and returns what the hook returns
    for [proto]; without a hook it returns the formatter registered for
    [(type(value), proto)], instantiated on the value; when that key is
    missing and the value is not itself a class object, it walks the
    method-resolution order of the type without the type itself, from the
    most derived ancestor on, and returns the first registered formatter
    instantiated on the value, and when no ancestor has an entry either it
    raises [ProgrammingError] with a message that names the type.  When
    the key is missing and the value is a class object (its type is
    [type]), the call [obj_type.mro()] of line 248 raises [TypeError]:
    neither the walk nor the [ProgrammingError] is reached. *)
Theorem adapt_dispatch (rt : Runtime) (adapters : Registry) (value : Value)
    (proto : Proto) :
  (forall conform,
     getattr_conform value = Some conform ->
     adapt rt adapters value proto = conform proto)
  /\ (forall cls,
        getattr_conform value = None ->
        adapters !! (type_of rt value, proto) = Some cls ->
        adapt rt adapters value proto = Ok (VAdapter cls value None))
  /\ (forall pre ancestor post cls,
        getattr_conform value = None ->
        type_of rt value <> TBuiltin t_type ->
        adapters !! (type_of rt value, proto) = None ->
        mro rt (type_of rt value)
        = type_of rt value :: pre ++ ancestor :: post ->
        Forall (fun u => adapters !! (u, proto) = None) pre ->
        adapters !! (ancestor, proto) = Some cls ->
        adapt rt adapters value proto = Ok (VAdapter cls value None))
  /\ (getattr_conform value = None ->
      type_of rt value <> TBuiltin t_type ->
      Forall (fun u => adapters !! (u, proto) = None)
        (mro rt (type_of rt value)) ->
      adapt rt adapters value proto
      = Raise ProgrammingError
          ("can't adapt type '" +:+ type_name rt (type_of rt value) +:+ "'"))
  /\ (getattr_conform value = None ->
      type_of rt value = TBuiltin t_type ->
      adapters !! (TBuiltin t_type, proto) = None ->
      adapt rt adapters value proto
      = Raise TypeError
          "descriptor 'mro' of 'type' object needs an argument").
Proof.
  unfold adapt. split; [|split; [|split; [|split]]].
  - by intros conform ->.
  - intros cls. apply adapt_registered.
  - intros pre ancestor post cls -> Hinstance Hmiss Hmro Hpre Hhit.
    rewrite (lookup_and_call_miss _ _ _ _ Hmiss).
    rewrite (call_mro_instance _ _ Hinstance), bind_Ok, Hmro. simpl.
    by rewrite (adapt_loop_first_match _ _ _ _ _ _ _ Hpre Hhit).
  - intros -> Hinstance Hall. rewrite mro_head in Hall.
    apply Forall_cons in Hall as [Hself Hrest].
    rewrite (lookup_and_call_miss _ _ _ _ Hself).
    rewrite (call_mro_instance _ _ Hinstance), bind_Ok.
    by rewrite (adapt_loop_no_match _ _ _ _ Hrest).
  - intros -> Htype Hmiss. rewrite Htype.
    by rewrite (lookup_and_call_miss _ _ _ _ Hmiss).
Qed.

(** The paths on the sample runtime and the registry after import: an
    object with a hook, an [int], an instance of [Score] (whose ancestors
    [Point] and [Counter] have no entry and whose ancestor [int] has one),
    an instance of [Point], and the class [int] itself. *)
Lemma adapt_dispatch_witness :
  adapt Sample.runtime Sample.adapters Sample.now proto_ISQLQuote
  = Ok (VAdapter AsIs (VStr "now()") None)
  /\ adapt Sample.runtime Sample.adapters (VInt 5) proto_ISQLQuote
     = Ok (VAdapter Int (VInt 5) None)
  /\ adapt Sample.runtime Sample.adapters (VObject 3 None) proto_ISQLQuote
     = Ok (VAdapter Int (VObject 3 None) None)
  /\ adapt Sample.runtime Sample.adapters (VObject 1 None) proto_ISQLQuote
     = Raise ProgrammingError "can't adapt type 'Point'"
  /\ adapt Sample.runtime Sample.adapters Sample.int_class proto_ISQLQuote
     = Raise TypeError "descriptor 'mro' of 'type' object needs an argument".
Proof.
  split; [|split; [|split; [|split]]].
  - destruct (adapt_dispatch Sample.runtime Sample.adapters Sample.now
                proto_ISQLQuote) as (Hhook & _).
    exact (Hhook Sample.now_conform eq_refl).
  - destruct (adapt_dispatch Sample.runtime Sample.adapters (VInt 5)
                proto_ISQLQuote) as (_ & Hdirect & _).
    apply Hdirect; reflexivity.
  - destruct (adapt_dispatch Sample.runtime Sample.adapters (VObject 3 None)
                proto_ISQLQuote) as (_ & _ & Hwalk & _).
    apply (Hwalk [TClass 1; TClass 2] (TBuiltin t_int) [TBuiltin t_object]);
      try reflexivity; [discriminate|].
    repeat constructor.
  - destruct (adapt_dispatch Sample.runtime Sample.adapters (VObject 1 None)
                proto_ISQLQuote) as (_ & _ & _ & Hnone & _).
    apply Hnone; [reflexivity|discriminate|].
    repeat constructor.
  - destruct (adapt_dispatch Sample.runtime Sample.adapters Sample.int_class
                proto_ISQLQuote) as (_ & _ & _ & _ & Hclass).
    apply Hclass; reflexivity.
Defined.

(** ** Sequences and null *)

Lemma mapM_Forall2 {A B C : Type} (f : A -> Result B) (g : C -> B)
    (l : list A) (es : list C) :
  Forall2 (fun x e => f x = Ok (g e)) l es ->
  mapM f l = Ok (map g es).
Proof.
  induction 1 as [|x e l es Hx _ IH]; simpl; [reflexivity|].
  by rewrite Hx, bind_Ok, IH.
Qed.

(** The loop stops at the first element that raises. *)
Lemma mapM_first_error {A B C : Type} (f : A -> Result B) (g : C -> B)
    (before after : list A) (x : A) (es : list C) (e : ExnClass)
    (msg : string) :
  Forall2 (fun x e => f x = Ok (g e)) before es ->
  f x = Raise e msg ->
  mapM f (before ++ x :: after) = Raise e msg.
Proof.
  intros Hbefore Hx. induction Hbefore as [|y e' l es' Hy _ IH]; simpl.
  - by rewrite Hx.
  - by rewrite Hy, bind_Ok, IH.
Qed.

Lemma join_items_bytes (es : list string) :
  join_items (map VStr es) = Ok es.
Proof.
  induction es as [|e es IH]; simpl; [reflexivity|]. by rewrite IH.
Qed.

Lemma py_len_list_nonempty (items : list Value) :
  items <> [] -> (Z.of_nat (length items) =? 0)%Z = false.
Proof.
  destruct items; [done|]. intros _. apply Z.eqb_neq. simpl length. lia.
Qed.

(** A non-empty sequence whose elements are quoted as [es] becomes the
    array literal of [es], in the same order. *)
Lemma List_getquoted_elements (rt : Runtime) (adapters : Registry)
    (depth : nat) (items : list Value) (es : list string)
    (c : option Connection) :
  items <> [] ->
  Forall2 (fun obj e => _getquoted rt adapters depth obj c = Ok (VStr e))
    items es ->
  List_getquoted rt adapters (S depth) (VList items) c
  = Ok ("ARRAY[" +:+ String.concat ", " es +:+ "]").
Proof.
  intros Hne Hitems. unfold List_getquoted, List_getquoted_with. simpl py_len.
  rewrite bind_Ok, (py_len_list_nonempty _ Hne). simpl py_items.
  rewrite bind_Ok, (mapM_Forall2 _ VStr _ _ Hitems), bind_Ok.
  unfold bytes_join. by rewrite join_items_bytes.
Qed.

(** The method dispatch on a [List] instance is [List.getquoted]. *)
Lemma getquoted_List (rt : Runtime) (adapters : Registry) (depth : nat)
    (w : Value) (c : option Connection) :
  getquoted rt adapters depth (VAdapter List w c)
  = (let! b := List_getquoted rt adapters depth w c in Ok (VStr b)).
Proof. destruct depth; reflexivity. Qed.

(** [adapt] itself does go through the registry for [None]: with the
    registry after import it builds a [NoneAdapter].  [_getquoted] returns
    before it would get there. *)
Lemma adapt_None_at_import (rt : Runtime) :
  adapt rt (adapters_at_import rt) VNone proto_ISQLQuote
  = Ok (VAdapter NoneAdapter VNone None).
Proof.
  apply adapt_registered; [reflexivity|].
  unfold adapters_at_import, register_adapter. apply lookup_insert_eq.
Qed.

(** C3: [_getquoted] answers [NULL] for [None] at once: whatever the
    registry holds and whatever the method call [getquoted] would do,
    neither is consulted; and a [None] element of a sequence is rendered as
    [NULL] among the other elements. *)
Theorem None_is_NULL (rt : Runtime) (adapters : Registry)
    (conn : option Connection) :
  (forall call_getquoted,
     _getquoted_with rt adapters call_getquoted VNone conn
     = Ok (VStr "NULL"))
  /\ (forall depth,
        _getquoted rt adapters depth VNone conn = Ok (VStr "NULL"))
  /\ (forall depth before after eb ea,
        Forall2
          (fun obj e => _getquoted rt adapters depth obj conn = Ok (VStr e))
          before eb ->
        Forall2
          (fun obj e => _getquoted rt adapters depth obj conn = Ok (VStr e))
          after ea ->
        List_getquoted rt adapters (S depth)
          (VList (before ++ VNone :: after)) conn
        = Ok ("ARRAY[" +:+ String.concat ", " (eb ++ "NULL" :: ea) +:+ "]")).
Proof.
  split; [|split].
  - reflexivity.
  - reflexivity.
  - intros depth before after eb ea Hb Ha.
    apply List_getquoted_elements; [by destruct before|].
    apply Forall2_app; [exact Hb|]. by constructor.
Qed.

(** A list with a [None] in the middle, and a bare [None], on the sample
    runtime. *)
Lemma None_is_NULL_witness :
  _getquoted Sample.runtime Sample.adapters 0 VNone (Some Sample.conn_e)
  = Ok (VStr "NULL")
  /\ List_getquoted Sample.runtime Sample.adapters 1
       (VList [VInt 1; VNone; VInt (-2)]) (Some Sample.conn_e)
     = Ok "ARRAY[1, NULL,  -2]".
Proof.
  destruct (None_is_NULL Sample.runtime Sample.adapters
              (Some Sample.conn_e)) as (_ & Hbare & Hnested).
  split; [apply Hbare|].
  apply (Hnested 0%nat [VInt 1] [VInt (-2)] ["1"] [" -2"]);
    repeat constructor.
Defined.

Lemma call_prepare_adapter (rt : Runtime) (cls : Formatter) (w : Value)
    (c0 conn : option Connection) :
  call_prepare rt (VAdapter cls w c0) conn
  = if has_prepare rt cls then Ok (VAdapter cls w conn)
    else Raise AttributeError "prepare".
Proof. reflexivity. Qed.

(** The built-in table maps [list] to [List] on every interpreter
    version. *)
Lemma adapters_at_import_list (rt : Runtime) :
  adapters_at_import rt !! (TBuiltin t_list, proto_ISQLQuote) = Some List.
Proof.
  unfold adapters_at_import, register_adapter, adapters_initial,
    built_in_adapters.
  destruct (version_lt (version_info rt) (3, 0)%Z),
    (version_lt (2, 6)%Z (version_info rt)); reflexivity.
Qed.

(** C7: [List.getquoted] returns ['{}'] for an empty sequence; for a
    non-empty sequence whose elements are quoted by [_getquoted] as
    [e1], [e2], ... against the connection of the list, it returns
    [ARRAY[e1, e2, ...]], the elements joined by a comma and a space in the
    order of the sequence, and the first element that raises ends the call
    with its exception.  [_getquoted] on an element that is not [None] is
    the full pipeline: [adapt] (hook, registry, ancestors), then [prepare]
    with that connection when the formatter has the method, then
    [getquoted].  On the registry after import [adapt] gives a list its
    [List] formatter. *)
Theorem List_getquoted_array (rt : Runtime) (adapters : Registry)
    (depth : nat) (c : option Connection) :
  List_getquoted rt adapters depth (VList []) c = Ok "'{}'"
  /\ (forall items es,
        items <> [] ->
        Forall2
          (fun obj e => _getquoted rt adapters depth obj c = Ok (VStr e))
          items es ->
        List_getquoted rt adapters (S depth) (VList items) c
        = Ok ("ARRAY[" +:+ String.concat ", " es +:+ "]"))
  /\ (forall before obj after eb e msg,
        Forall2
          (fun obj e => _getquoted rt adapters depth obj c = Ok (VStr e))
          before eb ->
        _getquoted rt adapters depth obj c = Raise e msg ->
        List_getquoted rt adapters (S depth)
          (VList (before ++ obj :: after)) c
        = Raise e msg)
  /\ (forall param,
        param <> VNone ->
        (forall e msg,
           adapt rt adapters param proto_ISQLQuote = Raise e msg ->
           _getquoted rt adapters depth param c = Raise e msg)
        /\ (forall cls w c0,
              adapt rt adapters param proto_ISQLQuote
              = Ok (VAdapter cls w c0) ->
              _getquoted rt adapters depth param c
              = getquoted rt adapters depth
                  (VAdapter cls w (if has_prepare rt cls then c else c0))))
  /\ (forall items,
        adapt rt (adapters_at_import rt) (VList items) proto_ISQLQuote
        = Ok (VAdapter List (VList items) None)
        /\ getquoted rt adapters depth (VAdapter List (VList items) c)
           = (let! b := List_getquoted rt adapters depth (VList items) c in
              Ok (VStr b))).
Proof.
  split; [|split; [|split; [|split]]].
  - reflexivity.
  - intros items es. apply List_getquoted_elements.
  - intros before obj after eb e msg Hb Hobj.
    unfold List_getquoted, List_getquoted_with. simpl py_len.
    rewrite bind_Ok, py_len_list_nonempty by (by destruct before).
    simpl py_items. rewrite bind_Ok.
    by rewrite (mapM_first_error _ VStr _ _ _ _ _ _ Hb Hobj).
  - intros param Hparam. unfold _getquoted, _getquoted_with. split.
    + intros e msg ->. by destruct param.
    + intros cls w c0 ->. rewrite bind_Ok, call_prepare_adapter.
      destruct param; try done; by destruct (has_prepare rt cls).
  - intros items. split; [|apply getquoted_List].
    apply adapt_registered; [reflexivity|apply adapters_at_import_list].
Qed.

(** The empty list, a flat list and a nested list on the sample runtime:
    strings are quoted with the connection of the list, integers have no
    [prepare] and are quoted without it. *)
Lemma List_getquoted_array_witness :
  List_getquoted Sample.runtime Sample.adapters 0 (VList []) None
  = Ok "'{}'"
  /\ List_getquoted Sample.runtime Sample.adapters 1
       (VList [VInt 1; VInt 2]) None
     = Ok "ARRAY[1, 2]"
  /\ List_getquoted Sample.runtime Sample.adapters 2
       (VList [VStr "it's"; VList [VInt (-3)]]) (Some Sample.conn_e)
     = Ok "ARRAY[E'it''s', ARRAY[ -3]]"
  /\ List_getquoted Sample.runtime Sample.adapters 1
       (VList [VInt 1; VObject 1 None; VInt 2]) None
     = Raise ProgrammingError "can't adapt type 'Point'"
  /\ _getquoted Sample.runtime Sample.adapters 0 (VStr "a") (Some Sample.conn_e)
     = getquoted Sample.runtime Sample.adapters 0
         (VAdapter QuotedString (VStr "a") (Some Sample.conn_e)).
Proof.
  split; [|split; [|split; [|split]]].
  - apply (List_getquoted_array Sample.runtime Sample.adapters 0 None).
  - destruct (List_getquoted_array Sample.runtime Sample.adapters 0 None)
      as (_ & Hitems & _).
    apply (Hitems [VInt 1; VInt 2] ["1"; "2"]); [discriminate|].
    repeat constructor.
  - destruct (List_getquoted_array Sample.runtime Sample.adapters 1
                (Some Sample.conn_e)) as (_ & Hitems & _).
    apply (Hitems [VStr "it's"; VList [VInt (-3)]]
             ["E'it''s'"; "ARRAY[ -3]"]); [discriminate|].
    repeat constructor.
  - destruct (List_getquoted_array Sample.runtime Sample.adapters 0 None)
      as (_ & _ & Herr & _).
    apply (Herr [VInt 1] (VObject 1 None) [VInt 2] ["1"]);
      repeat constructor.
  - destruct (List_getquoted_array Sample.runtime Sample.adapters 0
                (Some Sample.conn_e)) as (_ & _ & _ & Hpipe & _).
    destruct (Hpipe (VStr "a")) as (_ & Hok); [discriminate|].
    apply (Hok QuotedString (VStr "a") None). reflexivity.
Defined.

(** *** The recursion depth only matters when it runs out *)

Lemma mapM_Ok_mono {A B : Type} (f g : A -> Result B) (l : list A)
    (ys : list B) :
  (forall x y, f x = Ok y -> g x = Ok y) ->
  mapM f l = Ok ys -> mapM g l = Ok ys.
Proof.
  intros Hfg. revert ys. induction l as [|x l IH]; simpl; [done|].
  intros ys. destruct (f x) as [y|] eqn:Hx; [|discriminate].
  rewrite (Hfg _ _ Hx). simpl.
  destruct (mapM f l) as [ys'|]; [|discriminate].
  by rewrite (IH ys' eq_refl).
Qed.

Lemma List_getquoted_with_Ok_mono
    (f g : Value -> option Connection -> Result Value)
    (w : Value) (c : option Connection) (b : string) :
  (forall param conn v, f param conn = Ok v -> g param conn = Ok v) ->
  List_getquoted_with f w c = Ok b -> List_getquoted_with g w c = Ok b.
Proof.
  intros Hfg. unfold List_getquoted_with.
  destruct (py_len w) as [n|]; [|discriminate]. simpl.
  destruct (n =? 0)%Z; [done|].
  destruct (py_items w) as [items|]; [|discriminate]. simpl.
  destruct (mapM _ items) as [quoted|] eqn:Hq; [|discriminate].
  rewrite (mapM_Ok_mono _ (fun obj => g obj c) _ _
             (fun x y => Hfg x c y) Hq).
  done.
Qed.

Lemma _getquoted_with_Ok_mono (rt : Runtime) (adapters : Registry)
    (f g : Value -> Result Value) (param : Value)
    (conn : option Connection) (v : Value) :
  (forall a r, f a = Ok r -> g a = Ok r) ->
  _getquoted_with rt adapters f param conn = Ok v ->
  _getquoted_with rt adapters g param conn = Ok v.
Proof.
  intros Hfg. unfold _getquoted_with.
  destruct param; try done;
    (destruct (adapt rt adapters _ proto_ISQLQuote) as [a|]; [|done]; simpl;
     destruct (call_prepare rt a conn) as [a'|[] ?]; try done; apply Hfg).
Qed.

(** A literal obtained at some depth is obtained at every greater depth. *)
Lemma getquoted_depth_mono (rt : Runtime) (adapters : Registry)
    (depth : nat) (obj v : Value) :
  getquoted rt adapters depth obj = Ok v ->
  getquoted rt adapters (S depth) obj = Ok v.
Proof.
  revert obj v. induction depth as [|depth IH]; intros obj v.
  - destruct obj as [| | | | | | | | | | | | | | | | |cls w c| |t hook];
      try done.
    destruct cls; try done. simpl.
    destruct (List_getquoted_with _ w c) as [b|] eqn:Hb; [|discriminate].
    erewrite List_getquoted_with_Ok_mono; [done| |exact Hb]. done.
  - destruct obj as [| | | | | | | | | | | | | | | | |cls w c| |t hook];
      try done.
    destruct cls; try done.
    change (getquoted rt adapters (S depth) (VAdapter List w c))
      with (let! b :=
              List_getquoted_with
                (fun param conn =>
                   _getquoted_with rt adapters (getquoted rt adapters depth)
                     param conn) w c in
            Ok (VStr b)).
    change (getquoted rt adapters (S (S depth)) (VAdapter List w c))
      with (let! b :=
              List_getquoted_with
                (fun param conn =>
                   _getquoted_with rt adapters
                     (getquoted rt adapters (S depth)) param conn) w c in
            Ok (VStr b)).
    destruct (List_getquoted_with _ w c) as [b|] eqn:Hb; [|discriminate].
    erewrite List_getquoted_with_Ok_mono; [done| |exact Hb].
    intros param conn r. apply _getquoted_with_Ok_mono. exact IH.
Qed.

Lemma _getquoted_depth_mono (rt : Runtime) (adapters : Registry)
    (depth : nat) (param : Value) (conn : option Connection) (v : Value) :
  _getquoted rt adapters depth param conn = Ok v ->
  _getquoted rt adapters (S depth) param conn = Ok v.
Proof.
  apply _getquoted_with_Ok_mono. intros a r. apply getquoted_depth_mono.
Qed.

(** ** Quoted strings and binary data *)

(** C6, as the code behaves: the literal of a string opens with [E']
    exactly when a connection is bound and reports extended-escape mode,
    and with a plain quote when the connection reports standard mode or no
    connection is bound; it closes with a quote.  The literal of binary
    data, when the escape call returns its buffer, opens in the same way
    around the escaped bytes and closes with ['::bytea].  But when no
    connection is bound (or [PG_VERSION] is older than 0x080104) the escape
    call of line 65 passes the wrapped object itself as [from_length], where
    the call of line 61 passes its length: for a wrapped object that is not
    an integer the call is refused and [Binary.getquoted] raises, so that
    no literal is produced. *)
Theorem literal_quote_prefix (rt : Runtime) (w : Value)
    (c : option Connection) :
  let opening :=
    match c with
    | Some conn => if _equote conn then "E'" else "'"
    | None => "'"
    end in
  (forall string,
     _ensure_bytes rt c w = Ok string ->
     QuotedString_getquoted rt w c
     = Ok (opening +:+ buffer_value (QuotedString_escape rt string c)
           +:+ "'"))
  /\ (forall data_pointer to_length,
        w <> VNone ->
        Binary_escape rt w c = Ok (data_pointer, to_length) ->
        Binary_getquoted rt w c
        = Ok (opening +:+ pointer_slice data_pointer (to_length - 1)
              +:+ "'::bytea"))
  /\ (forall n conn,
        w <> VNone -> c = Some conn -> (0x080104 <= PG_VERSION rt)%Z ->
        py_len w = Ok n ->
        Binary_escape rt w c = PQescapeByteaConn rt (_pgconn conn) w n)
  /\ (forall e msg,
        w <> VNone ->
        c = None \/ (PG_VERSION rt < 0x080104)%Z ->
        ctypes_size_t w = Raise e msg ->
        Binary_getquoted rt w c = Raise e msg).
Proof.
  intros opening. subst opening. split; [|split; [|split]].
  - intros string Hs. unfold QuotedString_getquoted. rewrite Hs, bind_Ok.
    destruct c as [conn|]; simpl; [destruct (_equote conn)|]; reflexivity.
  - intros data_pointer to_length Hw Hesc. unfold Binary_getquoted.
    rewrite Hesc.
    destruct w; try done;
      (destruct c as [conn|]; simpl; [destruct (_equote conn)|]; reflexivity).
  - intros n conn Hw -> Hversion Hlen. unfold Binary_escape.
    simpl conn_bound. apply Z.leb_le in Hversion.
    by rewrite Hversion, Hlen.
  - intros e msg Hw Hunbound Hsize.
    assert (Binary_escape rt w c = Raise e msg) as Hesc.
    { unfold Binary_escape.
      assert (conn_bound c && (0x080104 <=? PG_VERSION rt)%Z = false) as ->.
      { destruct Hunbound as [->|Hversion]; [reflexivity|].
        apply Z.leb_gt in Hversion. rewrite Hversion. apply andb_false_r. }
      unfold Binary_escape_unbound. by rewrite Hsize. }
    unfold Binary_getquoted. rewrite Hesc. by destruct w.
Qed.

(** A string and a byte array against a connection in extended-escape
    mode and against one in standard mode, and a string without a
    connection, on the sample runtime; [Binary('ab')] without a connection
    gives no literal. *)
Lemma literal_quote_prefix_witness :
  QuotedString_getquoted Sample.runtime (VStr "it's") (Some Sample.conn_e)
  = Ok "E'it''s'"
  /\ QuotedString_getquoted Sample.runtime (VStr "it's") None
     = Ok "'it''s'"
  /\ Binary_getquoted Sample.runtime (VBytearray "ab") (Some Sample.conn_e)
     = Ok "E'ab'::bytea"
  /\ Binary_getquoted Sample.runtime (VBytearray "ab") (Some Sample.conn_std)
     = Ok "'ab'::bytea"
  /\ Binary_getquoted Sample.runtime (VStr "ab") None
     = Raise ArgumentError
         "argument 2: <type 'exceptions.TypeError'>: wrong type".
Proof.
  split; [|split; [|split; [|split]]].
  - destruct (literal_quote_prefix Sample.runtime (VStr "it's")
                (Some Sample.conn_e)) as (Hstr & _).
    exact (Hstr "it's" eq_refl).
  - destruct (literal_quote_prefix Sample.runtime (VStr "it's") None)
      as (Hstr & _).
    exact (Hstr "it's" eq_refl).
  - destruct (literal_quote_prefix Sample.runtime (VBytearray "ab")
                (Some Sample.conn_e)) as (_ & Hbin & _).
    apply (Hbin (String "a" (String "b" (String nul EmptyString))) 3%Z);
      [discriminate|reflexivity].
  - destruct (literal_quote_prefix Sample.runtime (VBytearray "ab")
                (Some Sample.conn_std)) as (_ & Hbin & _).
    apply (Hbin (String "a" (String "b" (String nul EmptyString))) 3%Z);
      [discriminate|reflexivity].
  - destruct (literal_quote_prefix Sample.runtime (VStr "ab") None)
      as (_ & _ & _ & Hunbound).
    apply Hunbound; [discriminate|by left|reflexivity].
Defined.

(** C5, as the code behaves: on the connection-aware path (a bound
    connection and [PG_VERSION >= 0x080104]) [QuotedString.getquoted]
    passes an error cell to [PQescapeStringConn] and never reads it:
    whatever value [err] the native call stores there, zero or not, the
    method returns the quoted content of the destination buffer.  The check
    of the error code and the [EscapeFailure] that the claim requires are
    missing. *)
Theorem QuotedString_error_cell_unread (rt : Runtime) (conn : Connection)
    (w : Value) (string to' : String.string) (err : Z) :
  (0x080104 <= PG_VERSION rt)%Z ->
  _ensure_bytes rt (Some conn) w = Ok string ->
  PQescapeStringConn rt (_pgconn conn)
    (create_string_buffer (String nul EmptyString)
       (Z.of_nat (String.length string) * 2 + 1))
    string (Z.of_nat (String.length string))
  = (to', err) ->
  QuotedString_getquoted rt w (Some conn)
  = Ok ((if _equote conn then "E'" else "'") +:+ buffer_value to' +:+ "'").
Proof.
  intros Hversion Hs Hcall. unfold QuotedString_getquoted.
  rewrite Hs, bind_Ok. unfold QuotedString_escape. simpl conn_bound.
  apply Z.leb_le in Hversion. rewrite Hversion. simpl andb.
  rewrite Hcall. simpl. by destruct (_equote conn).
Qed.

(** On the sample runtime the byte 233 alone is not valid in the UTF-8
    encoding of the connection: the native call reports error code 1 and
    the method returns a literal all the same. *)
Lemma QuotedString_error_cell_unread_witness :
  snd (PQescapeStringConn Sample.runtime (_pgconn Sample.conn_std)
         (create_string_buffer (String nul EmptyString) 9)
         ("caf" +:+ String "233"%char EmptyString) 4)
  = 1%Z
  /\ QuotedString_getquoted Sample.runtime
       (VStr ("caf" +:+ String "233"%char EmptyString))
       (Some Sample.conn_std)
     = Ok ("'caf" +:+ String "233"%char "'").
Proof.
  split; [reflexivity|].
  apply (QuotedString_error_cell_unread Sample.runtime Sample.conn_std
           (VStr ("caf" +:+ String "233"%char EmptyString))
           ("caf" +:+ String "233"%char EmptyString)
           ("caf" +:+ String "233"%char
              (string_of_list_ascii (repeat nul 5)))
           1%Z).
  - vm_compute. discriminate.
  - reflexivity.
  - reflexivity.
Defined.

(** ** Temporal construction helpers *)

Lemma check_date_fields_valid (y m d : Z) :
  valid_date y m d -> check_date_fields y m d = Ok tt.
Proof.
  unfold valid_date, check_date_fields. intros (Hy & Hm & Hd).
  split_range_tests; (reflexivity || lia).
Qed.

Lemma check_date_fields_invalid (y m d : Z) :
  ~ valid_date y m d ->
  exists msg, check_date_fields y m d = Raise ValueError msg.
Proof.
  unfold valid_date, check_date_fields. intros Hinvalid.
  split_range_tests; eauto. exfalso. apply Hinvalid. lia.
Qed.

Lemma check_time_fields_valid (h mi s : Z) :
  valid_time h mi s -> check_time_fields h mi s 0 = Ok tt.
Proof.
  unfold valid_time, check_time_fields. intros (Hh & Hmi & Hs).
  split_range_tests; (reflexivity || lia).
Qed.

Lemma check_time_fields_invalid (h mi s : Z) :
  ~ valid_time h mi s ->
  exists msg, check_time_fields h mi s 0 = Raise ValueError msg.
Proof.
  unfold valid_time, check_time_fields. intros Hinvalid.
  split_range_tests; eauto. exfalso. apply Hinvalid. lia.
Qed.

Lemma parse_c_int_fits (x : Z) : in_c_int x -> parse_c_int x = Ok x.
Proof.
  unfold in_c_int, parse_c_int. intros [Hmin Hmax].
  destruct (Z.ltb_spec x INT_MIN); [lia|].
  destruct (Z.ltb_spec INT_MAX x); [lia|reflexivity].
Qed.

Lemma parse_c_int_overflow (x : Z) :
  ~ in_c_int x -> exists msg, parse_c_int x = Raise OverflowError msg.
Proof.
  unfold in_c_int, parse_c_int. intros Hout.
  destruct (Z.ltb_spec x INT_MIN); [eauto|].
  destruct (Z.ltb_spec INT_MAX x); [eauto|]. exfalso. apply Hout. lia.
Qed.

Lemma days_in_month_bound (y m : Z) : (days_in_month y m <= 31)%Z.
Proof.
  unfold days_in_month.
  destruct (m =? 2)%Z; [destruct (is_leap y); lia|].
  destruct ((m =? 4) || (m =? 6) || (m =? 9) || (m =? 11))%Z; lia.
Qed.

Lemma valid_date_fits (y m d : Z) :
  valid_date y m d -> in_c_int y /\ in_c_int m /\ in_c_int d.
Proof.
  unfold valid_date, in_c_int, MINYEAR, MAXYEAR, INT_MIN, INT_MAX.
  pose proof (days_in_month_bound y m). lia.
Qed.

Lemma valid_time_fits (h mi s : Z) :
  valid_time h mi s -> in_c_int h /\ in_c_int mi /\ in_c_int s.
Proof. unfold valid_time, in_c_int, INT_MIN, INT_MAX. lia. Qed.

(** Reading three arguments as C [int]s, the first one that does not fit
    raising [OverflowError]. *)
Lemma parse_three (A : Type) (x y z : Z) (k : Z -> Z -> Z -> Result A) :
  (in_c_int x /\ in_c_int y /\ in_c_int z
   /\ (let! x := parse_c_int x in
       let! y := parse_c_int y in
       let! z := parse_c_int z in
       k x y z) = k x y z)
  \/ (~ (in_c_int x /\ in_c_int y /\ in_c_int z)
      /\ exists msg,
          (let! x := parse_c_int x in
           let! y := parse_c_int y in
           let! z := parse_c_int z in
           k x y z) = Raise OverflowError msg).
Proof.
  destruct (decide (in_c_int x)) as [Hx|Hx];
    [rewrite (parse_c_int_fits _ Hx), bind_Ok
    |destruct (parse_c_int_overflow _ Hx) as [msg ->]; right;
     split; [tauto|by exists msg]].
  destruct (decide (in_c_int y)) as [Hy|Hy];
    [rewrite (parse_c_int_fits _ Hy), bind_Ok
    |destruct (parse_c_int_overflow _ Hy) as [msg ->]; right;
     split; [tauto|by exists msg]].
  destruct (decide (in_c_int z)) as [Hz|Hz];
    [rewrite (parse_c_int_fits _ Hz), bind_Ok; by left
    |destruct (parse_c_int_overflow _ Hz) as [msg ->]; right;
     split; [tauto|by exists msg]].
Qed.

(** C9, as the code behaves: [Date], [Time] and [Timestamp] build the
    calendar value from their components and wrap it in a [DateTime]
    formatter when every component is in range; otherwise they fail with
    the exception of the calendar constructor, which is not turned into a
    [DataError]: [ValueError] when the components fit C [int]s and one is
    out of range (month 13, say), [OverflowError] when a component does not
    fit a C [int].  The [*FromTicks] helpers wrap what the platform's
    timestamp conversion returns and let its exception through
    unchanged. *)
Theorem temporal_helpers_validate (rt : Runtime) :
  (forall y m d,
     (valid_date y m d ->
      Date y m d
      = Ok (VAdapter DateTime (VDate {| year := y; month := m; day := d |})
              None))
     /\ (in_c_int y /\ in_c_int m /\ in_c_int d -> ~ valid_date y m d ->
         exists msg, Date y m d = Raise ValueError msg)
     /\ (~ (in_c_int y /\ in_c_int m /\ in_c_int d) ->
         exists msg, Date y m d = Raise OverflowError msg))
  /\ (forall h mi s tz,
        (valid_time h mi s ->
         Time h mi s tz
         = Ok (VAdapter DateTime
                 (VTime {| hour := h; minute := mi; second := s;
                           microsecond := 0; tzinfo := tz |})
                 None))
        /\ (in_c_int h /\ in_c_int mi /\ in_c_int s ->
            ~ valid_time h mi s ->
            exists msg, Time h mi s tz = Raise ValueError msg)
        /\ (~ (in_c_int h /\ in_c_int mi /\ in_c_int s) ->
            exists msg, Time h mi s tz = Raise OverflowError msg))
  /\ (forall y m d h mi s tz,
        (valid_date y m d -> valid_time h mi s ->
         Timestamp y m d h mi s tz
         = Ok (VAdapter DateTime
                 (VDatetime
                    {| dt_date := {| year := y; month := m; day := d |};
                       dt_time := {| hour := h; minute := mi; second := s;
                                     microsecond := 0; tzinfo := tz |} |})
                 None))
        /\ (in_c_int y /\ in_c_int m /\ in_c_int d ->
            in_c_int h /\ in_c_int mi /\ in_c_int s ->
            ~ (valid_date y m d /\ valid_time h mi s) ->
            exists msg, Timestamp y m d h mi s tz = Raise ValueError msg)
        /\ (~ (in_c_int y /\ in_c_int m /\ in_c_int d)
            \/ ~ (in_c_int h /\ in_c_int mi /\ in_c_int s) ->
            exists msg, Timestamp y m d h mi s tz = Raise OverflowError msg))
  /\ (forall ticks,
        (forall dt,
           fromtimestamp rt ticks None = Ok dt ->
           DateFromTicks rt ticks
           = Ok (VAdapter DateTime (VDate (datetime_get_date dt)) None)
           /\ TimeFromTicks rt ticks
              = Ok (VAdapter DateTime (VTime (datetime_get_time dt)) None))
        /\ (forall dt,
              fromtimestamp rt ticks (Some TZ_LOCAL) = Ok dt ->
              TimestampFromTicks rt ticks
              = Ok (VAdapter DateTime (VDatetime dt) None))
        /\ (forall e msg,
              fromtimestamp rt ticks None = Raise e msg ->
              DateFromTicks rt ticks = Raise e msg
              /\ TimeFromTicks rt ticks = Raise e msg)
        /\ (forall e msg,
              fromtimestamp rt ticks (Some TZ_LOCAL) = Raise e msg ->
              TimestampFromTicks rt ticks = Raise e msg)).
Proof.
  split; [|split; [|split]].
  - intros y m d. unfold Date, datetime_date.
    destruct (parse_three _ y m d
                (fun y m d =>
                   let! _ := check_date_fields y m d in
                   Ok {| year := y; month := m; day := d |}))
      as [(Hy & Hm & Hd & ->)|(Hout & msg & ->)].
    + split; [|split].
      * intros Hv. by rewrite (check_date_fields_valid _ _ _ Hv).
      * intros _ Hv.
        destruct (check_date_fields_invalid _ _ _ Hv) as [msg ->].
        by exists msg.
      * tauto.
    + split; [|split].
      * intros Hv. destruct Hout. by apply valid_date_fits.
      * tauto.
      * intros _. by exists msg.
  - intros h mi s tz. unfold Time, datetime_time.
    destruct (parse_three _ h mi s
                (fun h mi s =>
                   let! _ := check_time_fields h mi s 0 in
                   Ok {| hour := h; minute := mi; second := s;
                         microsecond := 0; tzinfo := tz |}))
      as [(Hh & Hmi & Hs & ->)|(Hout & msg & ->)].
    + split; [|split].
      * intros Hv. by rewrite (check_time_fields_valid _ _ _ Hv).
      * intros _ Hv.
        destruct (check_time_fields_invalid _ _ _ Hv) as [msg ->].
        by exists msg.
      * tauto.
    + split; [|split].
      * intros Hv. destruct Hout. by apply valid_time_fits.
      * tauto.
      * intros _. by exists msg.
  - intros y m d h mi s tz. unfold Timestamp, datetime_datetime.
    destruct (parse_three _ y m d
                (fun y m d =>
                   let! h := parse_c_int h in
                   let! mi := parse_c_int mi in
                   let! s := parse_c_int s in
                   let! _ := check_date_fields y m d in
                   let! _ := check_time_fields h mi s 0 in
                   Ok {| dt_date := {| year := y; month := m; day := d |};
                         dt_time := {| hour := h; minute := mi; second := s;
                                       microsecond := 0; tzinfo := tz |} |}))
      as [(Hy & Hm & Hd & ->)|(Hout & msg & ->)].
    + destruct (parse_three _ h mi s
                  (fun h mi s =>
                     let! _ := check_date_fields y m d in
                     let! _ := check_time_fields h mi s 0 in
                     Ok {| dt_date := {| year := y; month := m; day := d |};
                           dt_time := {| hour := h; minute := mi;
                                         second := s; microsecond := 0;
                                         tzinfo := tz |} |}))
        as [(Hh & Hmi & Hs & ->)|(Hout & msg & ->)].
      * split; [|split].
        -- intros Hvd Hvt.
           by rewrite (check_date_fields_valid _ _ _ Hvd),
                      (check_time_fields_valid _ _ _ Hvt).
        -- intros _ _ Hv.
           destruct (decide (valid_date y m d)) as [Hvd|Hvd].
           ++ rewrite (check_date_fields_valid _ _ _ Hvd), bind_Ok.
              assert (~ valid_time h mi s) as Hvt by tauto.
              destruct (check_time_fields_invalid _ _ _ Hvt) as [msg ->].
              by exists msg.
           ++ destruct (check_date_fields_invalid _ _ _ Hvd) as [msg ->].
              by exists msg.
        -- tauto.
      * split; [|split].
        -- intros _ Hvt. destruct Hout. by apply valid_time_fits.
        -- tauto.
        -- intros _. by exists msg.
    + split; [|split].
      * intros Hvd _. destruct Hout. by apply valid_date_fits.
      * tauto.
      * intros _. by exists msg.
  - intros ticks.
    unfold DateFromTicks, TimeFromTicks, TimestampFromTicks.
    split; [|split; [|split]].
    + by intros dt ->.
    + by intros dt ->.
    + by intros e msg ->.
    + by intros e msg ->.
Qed.

(** A leap day, a time, a timestamp and tick 0 on the sample runtime; month
    13 and second 60 are refused with [ValueError], the year 2^31 with
    [OverflowError]. *)
Lemma temporal_helpers_validate_witness :
  Date 2020 2 29
  = Ok (VAdapter DateTime (VDate {| year := 2020; month := 2; day := 29 |})
          None)
  /\ (exists msg, Date 2020 13 1 = Raise ValueError msg)
  /\ (exists msg, Date 2147483648 1 1 = Raise OverflowError msg)
  /\ (exists msg, Time 23 59 60 None = Raise ValueError msg)
  /\ (exists msg,
        Timestamp 2021 2 29 0 0 0 (Some TZ_LOCAL) = Raise ValueError msg)
  /\ DateFromTicks Sample.runtime (VInt 0)
     = Ok (VAdapter DateTime (VDate {| year := 1970; month := 1; day := 1 |})
             None)
  /\ TimestampFromTicks Sample.runtime (VFloat S754_nan)
     = Raise ValueError "timestamp out of range".
Proof.
  destruct (temporal_helpers_validate Sample.runtime)
    as (Hdate & Htime & Htimestamp & Hticks).
  split; [|split; [|split; [|split; [|split; [|split]]]]].
  - apply Hdate. unfold valid_date, MINYEAR, MAXYEAR.
    change (days_in_month 2020 2) with 29%Z. lia.
  - apply Hdate.
    + unfold in_c_int, INT_MIN, INT_MAX. lia.
    + unfold valid_date. lia.
  - apply Hdate. unfold in_c_int, INT_MIN, INT_MAX. lia.
  - apply Htime.
    + unfold in_c_int, INT_MIN, INT_MAX. lia.
    + unfold valid_time. lia.
  - apply Htimestamp.
    + unfold in_c_int, INT_MIN, INT_MAX. lia.
    + unfold in_c_int, INT_MIN, INT_MAX. lia.
    + unfold valid_date. change (days_in_month 2021 2) with 28%Z. lia.
  - destruct (Hticks (VInt 0)) as (Hok & _).
    destruct (Hok {| dt_date := {| year := 1970; month := 1; day := 1 |};
                     dt_time := {| hour := 0; minute := 0; second := 0;
                                   microsecond := 0; tzinfo := None |} |}
                eq_refl) as (Hd & _).
    exact Hd.
  - destruct (Hticks (VFloat S754_nan)) as (_ & _ & _ & Herr).
    apply Herr. reflexivity.
Defined.

(** Month 13 is out of range, and [Date] answers with the [ValueError] of
    [datetime.date], not with a [DataError]. *)
Lemma Date_month_13_raises_ValueError :
  ~ valid_date 2020 13 1
  /\ Date 2020 13 1 = Raise ValueError "month must be in 1..12"
  /\ ~ (exists msg, Date 2020 13 1 = Raise DataError msg).
Proof.
  split; [|split].
  - unfold valid_date. lia.
  - reflexivity.
  - intros [msg Hmsg]. discriminate Hmsg.
Qed.

(** * Further properties of the module *)

(** ** [adapt] and the registry *)

Lemma adapt_loop_outcome (adapters : Registry) (subtypes : list PyType)
    (proto : Proto) (value : Value) :
  (exists cls t,
     t ∈ subtypes /\ adapters !! (t, proto) = Some cls
     /\ adapt_loop adapters subtypes proto value
        = Some (Ok (VAdapter cls value None)))
  \/ adapt_loop adapters subtypes proto value = None.
Proof.
  induction subtypes as [|u rest IH]; simpl; [by right|].
  unfold lookup_and_call, registry_get.
  destruct (adapters !! (u, proto)) as [cls|] eqn:Hu; simpl.
  - left. exists cls, u. split; [left|done].
  - destruct IH as [(cls & t & Ht & Hcls & Hloop)|Hloop]; [left|by right].
    exists cls, t. split; [by right|done].
Qed.

Lemma call_mro_Ok (rt : Runtime) (t : PyType) (order : list PyType) :
  call_mro rt t = Ok order -> order = mro rt t.
Proof. destruct t as [[]|c|id]; simpl; congruence. Qed.

Lemma call_mro_type (rt : Runtime) (t : PyType) :
  t = TBuiltin t_type ->
  call_mro rt t
  = Raise TypeError "descriptor 'mro' of 'type' object needs an argument".
Proof. by intros ->. Qed.

Lemma seeding_loop_module_classes (table : list (PyType * Formatter))
    (adapters : Registry) :
  Forall (fun kv => is_module_class kv.2 = true) table ->
  map_Forall (fun _ cls => is_module_class cls = true) adapters ->
  map_Forall (fun _ cls => is_module_class cls = true)
    (foldl (fun adapters kv => <[(kv.1, proto_ISQLQuote) := kv.2]> adapters)
           adapters table).
Proof.
  intros Htable. revert adapters.
  induction Htable as [|kv table Hkv _ IH]; intros adapters Hm; simpl;
    [exact Hm|].
  apply IH. by apply map_Forall_insert_2.
Qed.

(** The table of the module holds classes of the module only. *)
Lemma adapters_initial_module_classes (rt : Runtime) :
  map_Forall (fun _ cls => is_module_class cls = true) (adapters_initial rt).
Proof.
  unfold adapters_initial. apply seeding_loop_module_classes.
  - unfold built_in_adapters.
    destruct (version_lt (version_info rt) (3, 0)%Z),
      (version_lt (2, 6)%Z (version_info rt)); repeat constructor.
  - apply map_Forall_empty.
Qed.

(** X1: for a value without a [__conform__] hook and a registry that holds
    classes of the module, [adapt] has three outcomes: a fresh formatter,
    unbound, that wraps the value itself and whose class is registered for
    a class of the method-resolution order; [ProgrammingError], for a
    value that is not a class object; [TypeError], for a class object.
    The [KeyError] of the registry never gets out.  The property [adapted]
    of the formatter gives the value back. *)
Theorem adapt_outcome (rt : Runtime) (adapters : Registry) (value : Value)
    (proto : Proto) :
  map_Forall (fun _ cls => is_module_class cls = true) adapters ->
  getattr_conform value = None ->
  (exists cls t,
     t ∈ mro rt (type_of rt value)
     /\ adapters !! (t, proto) = Some cls
     /\ adapt rt adapters value proto = Ok (VAdapter cls value None)
     /\ adapted (VAdapter cls value None) = Ok value)
  \/ (type_of rt value <> TBuiltin t_type
      /\ adapt rt adapters value proto
         = Raise ProgrammingError
             ("can't adapt type '" +:+ type_name rt (type_of rt value)
              +:+ "'"))
  \/ (type_of rt value = TBuiltin t_type
      /\ adapt rt adapters value proto
         = Raise TypeError
             "descriptor 'mro' of 'type' object needs an argument").
Proof.
  intros _ Hhook. unfold adapt. rewrite Hhook.
  destruct (adapters !! (type_of rt value, proto)) as [cls|] eqn:Hself.
  - rewrite (lookup_and_call_hit _ _ _ value _ Hself).
    left. exists cls, (type_of rt value).
    rewrite mro_head. split; [left|done].
  - rewrite (lookup_and_call_miss _ _ _ value Hself).
    destruct (decide (type_of rt value = TBuiltin t_type)) as [Htype|Htype].
    + right. right. split; [exact Htype|].
      by rewrite (call_mro_type _ _ Htype).
    + rewrite (call_mro_instance _ _ Htype), bind_Ok.
      destruct (adapt_loop_outcome adapters
                  (tail (mro rt (type_of rt value))) proto value)
        as [(cls & t & Ht & Hcls & ->)| ->].
      * left. exists cls, t. rewrite mro_head. split; [by right|done].
      * right. by left.
Qed.

(** A float and the class [int] on the sample runtime, with the table of
    the module as the registry. *)
Lemma adapt_outcome_witness :
  adapt Sample.runtime (adapters_initial Sample.runtime) (VFloat S754_nan)
    proto_ISQLQuote
  = Ok (VAdapter Float (VFloat S754_nan) None)
  /\ adapt Sample.runtime (adapters_initial Sample.runtime) Sample.int_class
       proto_ISQLQuote
     = Raise TypeError "descriptor 'mro' of 'type' object needs an argument".
Proof.
  split.
  - destruct (adapt_outcome Sample.runtime (adapters_initial Sample.runtime)
                (VFloat S754_nan) proto_ISQLQuote
                (adapters_initial_module_classes Sample.runtime) eq_refl)
      as [(cls & t & _ & _ & Hadapt & _)|[(_ & Hadapt)|(Htype & _)]].
    + rewrite Hadapt. vm_compute in Hadapt. by injection Hadapt as <-.
    + vm_compute in Hadapt. discriminate Hadapt.
    + discriminate Htype.
  - destruct (adapt_outcome Sample.runtime (adapters_initial Sample.runtime)
                Sample.int_class proto_ISQLQuote
                (adapters_initial_module_classes Sample.runtime) eq_refl)
      as [(cls & t & _ & _ & Hadapt & _)|[(Htype & _)|(_ & Hadapt)]].
    + vm_compute in Hadapt. discriminate Hadapt.
    + by destruct Htype.
    + exact Hadapt.
Defined.

Lemma adapt_loop_ext (reg1 reg2 : Registry) (subtypes : list PyType)
    (proto : Proto) (value : Value) :
  Forall (fun u => reg1 !! (u, proto) = reg2 !! (u, proto)) subtypes ->
  adapt_loop reg1 subtypes proto value = adapt_loop reg2 subtypes proto value.
Proof.
  induction 1 as [|u rest Hu _ IH]; simpl; [reflexivity|].
  unfold lookup_and_call, registry_get. by rewrite Hu, IH.
Qed.

Lemma adapt_ext (rt : Runtime) (reg1 reg2 : Registry) (value : Value)
    (proto : Proto) :
  Forall (fun u => reg1 !! (u, proto) = reg2 !! (u, proto))
    (mro rt (type_of rt value)) ->
  adapt rt reg1 value proto = adapt rt reg2 value proto.
Proof.
  rewrite mro_head. intros Hall.
  apply Forall_cons in Hall as [Hself Hrest].
  unfold adapt. destruct (getattr_conform value); [reflexivity|].
  unfold lookup_and_call, registry_get. rewrite Hself.
  destruct (reg2 !! (type_of rt value, proto)); [reflexivity|]. simpl.
  destruct (call_mro rt (type_of rt value)) as [order|] eqn:Horder;
    [|reflexivity].
  apply call_mro_Ok in Horder as ->.
  by rewrite bind_Ok, (adapt_loop_ext _ _ _ _ _ Hrest).
Qed.

(** X2: [adapt(value, proto)] reads the registry only at the keys
    [(t, proto)] with [t] in the method-resolution order of the type of the
    value: two registries that agree on these keys give the same
    outcome. *)
Theorem adapt_reads_only_mro_keys (rt : Runtime) (reg1 reg2 : Registry)
    (value : Value) (proto : Proto) :
  (forall t, t ∈ mro rt (type_of rt value) ->
             reg1 !! (t, proto) = reg2 !! (t, proto)) ->
  adapt rt reg1 value proto = adapt rt reg2 value proto.
Proof.
  intros Hagree. apply adapt_ext. by apply Forall_forall.
Qed.

(** Removing the entries of [tuple] and of [unicode] does not change what
    [adapt] does with an [int]. *)
Lemma adapt_reads_only_mro_keys_witness :
  adapt Sample.runtime Sample.adapters (VInt 3) proto_ISQLQuote
  = adapt Sample.runtime
      (delete (TBuiltin t_tuple, proto_ISQLQuote)
         (delete (TBuiltin t_unicode, proto_ISQLQuote) Sample.adapters))
      (VInt 3) proto_ISQLQuote.
Proof.
  apply (adapt_reads_only_mro_keys Sample.runtime).
  intros t Ht. simpl in Ht.
  apply elem_of_cons in Ht as [->|Ht]; [reflexivity|].
  apply elem_of_cons in Ht as [->|Ht]; [reflexivity|].
  by apply elem_of_nil in Ht.
Defined.



Lemma seeding_loop_other_proto (table : list (PyType * Formatter))
    (adapters : Registry) (t : PyType) (proto : Proto) :
  proto <> proto_ISQLQuote ->
  foldl (fun adapters kv => <[(kv.1, proto_ISQLQuote) := kv.2]> adapters)
        adapters table !! (t, proto)
  = adapters !! (t, proto).
Proof.
  intros Hproto. revert adapters.
  induction table as [|kv table IH]; intros adapters; simpl; [reflexivity|].
  rewrite IH. apply lookup_insert_ne. intros [= _ E]. by apply Hproto.
Qed.

Lemma adapters_at_import_other_proto (rt : Runtime) (t : PyType)
    (proto : Proto) :
  proto <> proto_ISQLQuote -> adapters_at_import rt !! (t, proto) = None.
Proof.
  intros Hproto. unfold adapters_at_import, register_adapter.
  rewrite !lookup_insert_ne by (intros [= _ E]; by apply Hproto).
  unfold adapters_initial.
  by rewrite seeding_loop_other_proto.
Qed.

(** X4: every entry that the module and the package store in the registry
    at import is under the protocol [ISQLQuote]: with any other protocol,
    [adapt] on a value without a hook finds nothing, whatever the type of
    the value; it raises [ProgrammingError] naming the type when the value
    is not a class object, and [TypeError] when it is one. *)
Theorem import_registry_only_ISQLQuote (rt : Runtime) (value : Value)
    (proto : Proto) :
  getattr_conform value = None ->
  proto <> proto_ISQLQuote ->
  (type_of rt value <> TBuiltin t_type ->
   adapt rt (adapters_at_import rt) value proto
   = Raise ProgrammingError
       ("can't adapt type '" +:+ type_name rt (type_of rt value) +:+ "'"))
  /\ (type_of rt value = TBuiltin t_type ->
      adapt rt (adapters_at_import rt) value proto
      = Raise TypeError
          "descriptor 'mro' of 'type' object needs an argument").
Proof.
  intros Hhook Hproto. unfold adapt. rewrite Hhook.
  rewrite lookup_and_call_miss
    by (by apply adapters_at_import_other_proto).
  split.
  - intros Htype. rewrite (call_mro_instance _ _ Htype), bind_Ok.
    rewrite adapt_loop_no_match; [reflexivity|].
    apply Forall_forall. intros t _.
    by apply adapters_at_import_other_proto.
  - intros Htype. by rewrite (call_mro_type _ _ Htype).
Qed.

(** An [int], and the class [int], adapted with the class [Binary] as
    protocol, on the sample runtime. *)
Lemma import_registry_only_ISQLQuote_witness :
  adapt Sample.runtime (adapters_at_import Sample.runtime) (VInt 3)
    (TFormatter Binary)
  = Raise ProgrammingError "can't adapt type 'int'"
  /\ adapt Sample.runtime (adapters_at_import Sample.runtime)
       Sample.int_class (TFormatter Binary)
     = Raise TypeError "descriptor 'mro' of 'type' object needs an argument".
Proof.
  split.
  - destruct (import_registry_only_ISQLQuote Sample.runtime (VInt 3)
                (TFormatter Binary) eq_refl) as (Hinstance & _);
      [discriminate|].
    apply Hinstance. discriminate.
  - destruct (import_registry_only_ISQLQuote Sample.runtime Sample.int_class
                (TFormatter Binary) eq_refl) as (_ & Hclass);
      [discriminate|].
    apply Hclass. reflexivity.
Defined.

Lemma adapters_at_import_2_7 (rt : Runtime) (value : Value) (cls : Formatter) :
  version_lt (version_info rt) (3, 0)%Z = true ->
  version_lt (2, 6)%Z (version_info rt) = true ->
  table_2_7 value = Some cls ->
  adapters_at_import rt !! (type_of rt value, proto_ISQLQuote) = Some cls.
Proof.
  intros Hlt3 Hgt26 Htable.
  unfold adapters_at_import, register_adapter, adapters_initial,
    built_in_adapters.
  unfold type_of, python3. rewrite Hlt3, Hgt26.
  destruct value; simpl in Htable; try discriminate Htable;
    injection Htable as <-; reflexivity.
Qed.

(** X5: on Python 2.7, once the package is imported, every value of a
    built-in type is adaptable: [adapt] gives [None] a [NoneAdapter], a
    [bool] a [Boolean] (not the [Int] of its base class), an [int] an [Int],
    a [long] a [Long], a [float] a [Float], a decimal a [Decimal], [str]
    and [unicode] a [QuotedString], [bytearray], [buffer] and [memoryview]
    a [Binary], a [list] a [List], a [tuple] an [SQL_IN], and the four
    temporal types a [DateTime].  On Python 2.6 and earlier a [memoryview]
    has no entry and is refused. *)
Theorem builtin_values_adaptable (rt : Runtime) :
  version_lt (version_info rt) (3, 0)%Z = true ->
  (version_lt (2, 6)%Z (version_info rt) = true ->
   forall value cls,
     table_2_7 value = Some cls ->
     adapt rt (adapters_at_import rt) value proto_ISQLQuote
     = Ok (VAdapter cls value None))
  /\ (version_lt (2, 6)%Z (version_info rt) = false ->
      forall s,
        adapt rt (adapters_at_import rt) (VMemoryview s) proto_ISQLQuote
        = Raise ProgrammingError "can't adapt type 'memoryview'").
Proof.
  intros Hlt3. split.
  - intros Hgt26 value cls Htable. apply adapt_registered.
    + by destruct value.
    + by apply adapters_at_import_2_7.
  - intros Hle26 s. unfold adapt. simpl getattr_conform.
    unfold adapters_at_import, register_adapter, adapters_initial,
      built_in_adapters.
    rewrite Hlt3, Hle26. reflexivity.
Qed.

(** The sample runtime is a Python 2.7: a [bool], a [unicode] string and a
    [datetime] there. *)
Lemma builtin_values_adaptable_witness :
  adapt Sample.runtime Sample.adapters (VBool true) proto_ISQLQuote
  = Ok (VAdapter Boolean (VBool true) None)
  /\ adapt Sample.runtime Sample.adapters (VUnicode [104; 105]%N)
       proto_ISQLQuote
     = Ok (VAdapter QuotedString (VUnicode [104; 105]%N) None)
  /\ adapt Sample.runtime Sample.adapters (VTuple []) proto_ISQLQuote
     = Ok (VAdapter SQL_IN (VTuple []) None).
Proof.
  destruct (builtin_values_adaptable Sample.runtime eq_refl) as (H27 & _).
  split; [|split]; apply (H27 eq_refl); reflexivity.
Defined.

(** ** Parameters through [_getquoted] *)

Lemma _getquoted_bool_at_import (rt : Runtime) (depth : nat)
    (conn : option Connection) (b : bool) :
  _getquoted rt (adapters_at_import rt) depth (VBool b) conn
  = Ok (VStr (if b then "true" else "false")).
Proof.
  unfold _getquoted, _getquoted_with, adapt, adapters_at_import,
    register_adapter, adapters_initial, built_in_adapters.
  destruct (version_lt (version_info rt) (3, 0)%Z),
    (version_lt (2, 6)%Z (version_info rt)), depth; reflexivity.
Qed.

Lemma _getquoted_int_at_import (rt : Runtime) (depth : nat)
    (conn : option Connection) (n : Z) :
  _getquoted rt (adapters_at_import rt) depth (VInt n) conn
  = Ok (VStr (sign_space (str_of_Z n))).
Proof.
  unfold _getquoted, _getquoted_with, adapt, adapters_at_import,
    register_adapter, adapters_initial, built_in_adapters.
  destruct (version_lt (version_info rt) (3, 0)%Z),
    (version_lt (2, 6)%Z (version_info rt)), depth; reflexivity.
Qed.

(** X6: on the registry after import, whatever the interpreter version,
    the connection and the recursion depth left, [_getquoted] renders a
    [bool] as [true] or [false] and an [int] as its decimal digits, with a
    space before the minus sign of a negative one.  ([int] is handled by
    [Int] on Python 2 and by [Long] on Python 3, with the same literal.) *)
Theorem scalar_parameters (rt : Runtime) (depth : nat)
    (conn : option Connection) :
  (forall b,
     _getquoted rt (adapters_at_import rt) depth (VBool b) conn
     = Ok (VStr (if b then "true" else "false")))
  /\ (forall n,
        _getquoted rt (adapters_at_import rt) depth (VInt n) conn
        = Ok (VStr (sign_space (str_of_Z n)))).
Proof.
  split; [apply _getquoted_bool_at_import|apply _getquoted_int_at_import].
Qed.

Lemma int_elements_quoted (rt : Runtime) (depth : nat)
    (conn : option Connection) (ns : list Z) :
  Forall2
    (fun obj e =>
       _getquoted rt (adapters_at_import rt) depth obj conn = Ok (VStr e))
    (map VInt ns) (map (fun n => sign_space (str_of_Z n)) ns).
Proof.
  induction ns as [|n ns IH]; simpl; constructor; [|exact IH].
  apply _getquoted_int_at_import.
Qed.

Lemma _getquoted_list_at_import (rt : Runtime) (depth : nat)
    (conn : option Connection) (items : list Value) :
  _getquoted rt (adapters_at_import rt) depth (VList items) conn
  = (let! b := List_getquoted rt (adapters_at_import rt) depth
                 (VList items) conn in
     Ok (VStr b)).
Proof.
  unfold _getquoted, _getquoted_with.
  rewrite (adapt_registered rt _ (VList items) _ List eq_refl
             (adapters_at_import_list rt)).
  rewrite bind_Ok, call_prepare_adapter. simpl has_prepare.
  apply getquoted_List.
Qed.

(** X7: on the registry after import, a list of integers given as a
    parameter becomes [ARRAY[...]] with the integers in order, each with
    the sign rule applied, separated by a comma and a space; the empty list
    becomes ['{}'].  One level of recursion is enough, and the connection
    does not matter. *)
Theorem int_list_parameter (rt : Runtime) (depth : nat)
    (conn : option Connection) (ns : list Z) :
  _getquoted rt (adapters_at_import rt) depth (VList []) conn
  = Ok (VStr "'{}'")
  /\ (ns <> [] ->
      _getquoted rt (adapters_at_import rt) (S depth) (VList (map VInt ns))
        conn
      = Ok (VStr ("ARRAY["
                  +:+ String.concat ", "
                        (map (fun n => sign_space (str_of_Z n)) ns)
                  +:+ "]"))).
Proof.
  split.
  - rewrite _getquoted_list_at_import. reflexivity.
  - intros Hne. rewrite _getquoted_list_at_import.
    rewrite (List_getquoted_elements rt _ depth (map VInt ns)
               (map (fun n => sign_space (str_of_Z n)) ns) conn).
    + reflexivity.
    + by destruct ns.
    + apply int_elements_quoted.
Qed.

(** The list [3, -1, 0] bound to a connection, on the sample runtime. *)
Lemma int_list_parameter_witness :
  _getquoted Sample.runtime Sample.adapters 1
    (VList [VInt 3; VInt (-1); VInt 0]) (Some Sample.conn_std)
  = Ok (VStr "ARRAY[3,  -1, 0]").
Proof.
  destruct (int_list_parameter Sample.runtime 0 (Some Sample.conn_std)
              [3; -1; 0]%Z) as (_ & Hlist).
  apply Hlist. discriminate.
Defined.

(** X8: a formatter whose class has no [prepare] method ([Boolean],
    [DateTime], [Decimal], [Float], [Int], [Long]) never receives the
    connection: when [adapt] answers with such a formatter, [_getquoted]
    gives the same outcome for every connection, the one of the formatter
    as [adapt] returned it. *)
Theorem unprepared_formatter_ignores_connection (rt : Runtime)
    (adapters : Registry) (depth : nat) (param : Value) (cls : Formatter)
    (w : Value) (c0 conn conn' : option Connection) :
  adapt rt adapters param proto_ISQLQuote = Ok (VAdapter cls w c0) ->
  has_prepare rt cls = false ->
  _getquoted rt adapters depth param conn
  = _getquoted rt adapters depth param conn'
  /\ (param <> VNone ->
      _getquoted rt adapters depth param conn
      = getquoted rt adapters depth (VAdapter cls w c0)).
Proof.
  intros Hadapt Hprepare. unfold _getquoted, _getquoted_with.
  rewrite Hadapt, !bind_Ok, !call_prepare_adapter, Hprepare.
  split; [by destruct param|]. intros Hparam. by destruct param.
Qed.

(** A decimal with and without a connection, on the sample runtime. *)
Lemma unprepared_formatter_ignores_connection_witness :
  _getquoted Sample.runtime Sample.adapters 0
    (VDecimal {| dec_sign := true; dec_int := 5; dec_exp := ExpInt 0 |})
    (Some Sample.conn_e)
  = _getquoted Sample.runtime Sample.adapters 0
      (VDecimal {| dec_sign := true; dec_int := 5; dec_exp := ExpInt 0 |})
      None.
Proof.
  destruct (unprepared_formatter_ignores_connection Sample.runtime
              Sample.adapters 0
              (VDecimal
                 {| dec_sign := true; dec_int := 5; dec_exp := ExpInt 0 |})
              Decimal
              (VDecimal
                 {| dec_sign := true; dec_int := 5; dec_exp := ExpInt 0 |})
              None (Some Sample.conn_e) None eq_refl eq_refl) as (Hsame & _).
  exact Hsame.
Defined.

(** ** Literals *)

Lemma sign_space_no_minus (value : string) :
  startswith_minus (sign_space value) = false.
Proof.
  unfold sign_space. destruct (startswith_minus value) eqn:E; [|exact E].
  reflexivity.
Qed.

(** X9: no literal of [Int], [Long], [Float] or [Decimal] begins with the
    minus sign, whatever the wrapped value, its rendering by the
    interpreter and the connection: a literal can be put after an operator
    without forming [--] or a binary minus. *)
Theorem numeric_literal_never_starts_with_minus (rt : Runtime) (w : Value)
    (c : option Connection) (lit : string) :
  Int_getquoted rt w c = Ok lit
  \/ Long_getquoted rt w c = Ok lit
  \/ Float_getquoted rt w c = Ok lit
  \/ Decimal_getquoted rt w c = Ok lit ->
  startswith_minus lit = false.
Proof.
  unfold Int_getquoted, Long_getquoted, Float_getquoted, Decimal_getquoted.
  intros [H|[H|[H|H]]].
  - destruct (py_str rt w) as [value|]; [|discriminate]. simpl in H.
    rewrite _ensure_bytes_str in H. injection H as <-.
    apply sign_space_no_minus.
  - destruct (py_str rt w) as [value|]; [|discriminate]. simpl in H.
    rewrite _ensure_bytes_str in H. injection H as <-.
    apply sign_space_no_minus.
  - destruct (py_float rt w) as [n|]; [|discriminate]. simpl in H.
    destruct (isnan n); [by injection H as <-|].
    destruct (isinf n).
    + destruct (float_gt_zero n); by injection H as <-.
    + destruct (py_repr rt w) as [value|]; [|discriminate]. simpl in H.
      rewrite _ensure_bytes_str in H. injection H as <-.
      apply sign_space_no_minus.
  - destruct w; try discriminate. destruct (is_finite d).
    + destruct (py_str rt (VDecimal d)) as [value|]; [|discriminate].
      simpl in H. rewrite _ensure_bytes_str in H. injection H as <-.
      apply sign_space_no_minus.
    + by injection H as <-.
Qed.

(** The literal of -5 on the sample runtime. *)
Lemma numeric_literal_never_starts_with_minus_witness :
  startswith_minus " -5" = false.
Proof.
  apply (numeric_literal_never_starts_with_minus Sample.runtime (VInt (-5))
           None " -5").
  left. reflexivity.
Defined.

(** ** [Binary] and [QuotedString] *)

(** X10: a [Binary] instance can itself be given as a parameter: through
    its [__conform__] method [adapt] returns the instance, for every
    registry and protocol, and [_getquoted] quotes it bound to the
    connection of the call; [Binary(None)] gives [NULL].  It is the only
    class of the module with this property: on the registry after import,
    an instance of any other class of the module is refused with
    [ProgrammingError]. *)
Theorem Binary_instance_parameter (rt : Runtime) (adapters : Registry)
    (depth : nat) (w : Value) (c0 conn : option Connection) (proto : Proto) :
  adapt rt adapters (VAdapter Binary w c0) proto = Ok (VAdapter Binary w c0)
  /\ _getquoted rt adapters depth (VAdapter Binary w c0) conn
     = (let! b := Binary_getquoted rt w conn in Ok (VStr b))
  /\ _getquoted rt adapters depth (VAdapter Binary VNone c0) conn
     = Ok (VStr "NULL")
  /\ (forall cls,
        cls <> Binary -> (forall id, cls <> AppFormatter id) ->
        adapt rt (adapters_at_import rt) (VAdapter cls w c0) proto_ISQLQuote
        = Raise ProgrammingError
            ("can't adapt type '" +:+ type_name rt (TFormatter cls) +:+ "'")).
Proof.
  split; [reflexivity|]. split; [by destruct depth|].
  split; [by destruct depth|].
  intros cls Hbinary Happ.
  unfold adapt, adapters_at_import, register_adapter, adapters_initial,
    built_in_adapters.
  destruct cls; try done; try (by destruct (Happ id));
    destruct (version_lt (version_info rt) (3, 0)%Z),
      (version_lt (2, 6)%Z (version_info rt)); reflexivity.
Qed.

(** An [Int] instance given as a parameter on the sample runtime. *)
Lemma Binary_instance_parameter_witness :
  adapt Sample.runtime Sample.adapters (VAdapter Int (VInt 1) None)
    proto_ISQLQuote
  = Raise ProgrammingError "can't adapt type 'Int'".
Proof.
  destruct (Binary_instance_parameter Sample.runtime Sample.adapters 0
              (VInt 1) None None proto_ISQLQuote) as (_ & _ & _ & Hother).
  apply (Hother Int); discriminate.
Defined.

Lemma substring_prefix (s t : string) :
  String.substring 0 (String.length s) (s +:+ t) = s.
Proof.
  induction s as [|ch s IH]; simpl; [by destruct t|]. by rewrite IH.
Qed.

(** X11: when the native escape function keeps its contract (the buffer
    holds the escaped bytes followed by a zero byte, and [to_length] counts
    the escaped bytes and the terminator), the literal of [Binary] contains
    exactly the escaped bytes: the terminator and whatever follows it in
    memory are left out. *)
Theorem Binary_literal_drops_terminator (rt : Runtime) (w : Value)
    (c : option Connection) (escaped rest : string) :
  w <> VNone ->
  Binary_escape rt w c
  = Ok (escaped +:+ String nul rest,
        (Z.of_nat (String.length escaped) + 1)%Z) ->
  Binary_getquoted rt w c
  = Ok ((if conn_equote c then "E'" else "'") +:+ escaped +:+ "'::bytea").
Proof.
  intros Hw Hescape. unfold Binary_getquoted. rewrite Hescape, bind_Ok.
  unfold pointer_slice.
  replace (Z.of_nat (String.length escaped) + 1 - 1)%Z
    with (Z.of_nat (String.length escaped)) by lia.
  rewrite Nat2Z.id, substring_prefix.
  destruct w; try done; by destruct (conn_equote c).
Qed.

(** A byte array with a quote, bound to a connection in standard mode, on
    the sample runtime. *)
Lemma Binary_literal_drops_terminator_witness :
  Binary_getquoted Sample.runtime (VBytearray "a'b") (Some Sample.conn_std)
  = Ok "'a''b'::bytea".
Proof.
  apply (Binary_literal_drops_terminator Sample.runtime (VBytearray "a'b")
           (Some Sample.conn_std) "a''b" EmptyString).
  - discriminate.
  - reflexivity.
Defined.

Lemma has_nul_append (s t : string) :
  has_nul (s +:+ t) = has_nul s || has_nul t.
Proof.
  induction s as [|ch s IH]; simpl; [reflexivity|].
  by rewrite IH, orb_assoc.
Qed.

Lemma has_nul_buffer_value (buf : string) : has_nul (buffer_value buf) = false.
Proof.
  induction buf as [|ch buf IH]; simpl; [reflexivity|].
  destruct (Ascii.eqb ch nul) eqn:E; simpl; [reflexivity|]. by rewrite E.
Qed.

(** X12: whatever the native escape function writes into the destination
    buffer, a literal returned by [QuotedString.getquoted] contains no zero
    byte: it is the opening quote ([E'] or a plain quote), the bytes of the
    buffer before its first zero byte, and a closing quote. *)
Theorem QuotedString_literal_has_no_nul (rt : Runtime) (w : Value)
    (c : option Connection) (lit : string) :
  QuotedString_getquoted rt w c = Ok lit ->
  has_nul lit = false
  /\ exists body,
       has_nul body = false
       /\ lit = (if conn_equote c then "E'" else "'") +:+ body +:+ "'".
Proof.
  unfold QuotedString_getquoted.
  destruct (_ensure_bytes rt c w) as [string|]; [|discriminate].
  rewrite bind_Ok. intros Hlit.
  assert (lit = (if conn_equote c then "E'" else "'")
                +:+ buffer_value (QuotedString_escape rt string c) +:+ "'")
    as -> by (destruct (conn_equote c); by injection Hlit as <-).
  split.
  - rewrite !has_nul_append, has_nul_buffer_value.
    by destruct (conn_equote c).
  - eexists. split; [apply has_nul_buffer_value|reflexivity].
Qed.

(** A string with a zero byte in the middle, on the sample runtime: the
    literal stops before it. *)
Lemma QuotedString_literal_has_no_nul_witness :
  has_nul "'ab'" = false
  /\ exists body,
       has_nul body = false
       /\ "'ab'" = (if conn_equote None then "E'" else "'") +:+ body +:+ "'".
Proof.
  apply (QuotedString_literal_has_no_nul Sample.runtime
           (VStr ("ab" +:+ String nul "cd")) None "'ab'").
  reflexivity.
Defined.

Lemma create_string_buffer_zeros (n : nat) :
  create_string_buffer (String nul EmptyString) (Z.of_nat n * 2 + 1)
  = string_of_list_ascii (repeat nul (2 * n + 1)).
Proof.
  unfold create_string_buffer. simpl String.length.
  replace (Z.to_nat (Z.of_nat n * 2 + 1) - 1)%nat with (2 * n)%nat by lia.
  replace (2 * n + 1)%nat with (S (2 * n)) by lia.
  reflexivity.
Qed.

(** X13: the destination buffer that [QuotedString.getquoted] hands to the
    native escape function consists of twice the length of the string plus
    one zero bytes; the connection-aware function is called exactly when a
    connection is bound and [PG_VERSION] is at least 0x080104, and the
    connection-less one otherwise, also with a bound connection. *)
Theorem QuotedString_escape_call (rt : Runtime) (string : String.string)
    (c : option Connection) :
  let length := Z.of_nat (String.length string) in
  let to :=
    string_of_list_ascii (repeat nul (2 * String.length string + 1)) in
  (forall conn,
     c = Some conn -> (0x080104 <= PG_VERSION rt)%Z ->
     QuotedString_escape rt string c
     = fst (PQescapeStringConn rt (_pgconn conn) to string length))
  /\ (c = None \/ (PG_VERSION rt < 0x080104)%Z ->
      QuotedString_escape rt string c = PQescapeString rt to string length).
Proof.
  intros length to. subst length to. unfold QuotedString_escape.
  rewrite create_string_buffer_zeros. split.
  - intros conn -> Hversion. simpl conn_bound.
    apply Z.leb_le in Hversion. rewrite Hversion. simpl andb.
    by destruct (PQescapeStringConn rt (_pgconn conn) _ string _).
  - intros Hother.
    destruct Hother as [->|Hversion]; [reflexivity|].
    apply Z.leb_gt in Hversion. rewrite Hversion, andb_false_r.
    reflexivity.
Qed.

(** The two calls on the sample runtime, for the string [it's]: the buffer
    has nine zero bytes. *)
Lemma QuotedString_escape_call_witness :
  QuotedString_escape Sample.runtime "it's" (Some Sample.conn_e)
  = fst (PQescapeStringConn Sample.runtime 1
           (string_of_list_ascii (repeat nul 9)) "it's" 4)
  /\ QuotedString_escape Sample.runtime "it's" None
     = PQescapeString Sample.runtime
         (string_of_list_ascii (repeat nul 9)) "it's" 4.
Proof.
  destruct (QuotedString_escape_call Sample.runtime "it's"
              (Some Sample.conn_e)) as (Hconn & _).
  destruct (QuotedString_escape_call Sample.runtime "it's" None)
    as (_ & Hplain).
  split.
  - apply (Hconn Sample.conn_e eq_refl). vm_compute. discriminate.
  - apply Hplain. by left.
Defined.

(** ** Temporal values *)

(** X14: the literal of a [timedelta] is
    ['<days> days <seconds>.0 seconds'::interval]; it never fails, does not
    depend on the connection, and does not contain the microseconds: two
    durations with the same days and seconds have the same literal. *)
Theorem interval_literal (rt : Runtime) (td : PyTimedelta)
    (c : option Connection) :
  DateTime_getquoted rt (VTimedelta td) c
  = Ok ("'" +:+ str_of_Z (days td) +:+ " days " +:+ str_of_Z (seconds td)
        +:+ ".0 seconds'::interval")
  /\ (forall td' c',
        days td' = days td -> seconds td' = seconds td ->
        DateTime_getquoted rt (VTimedelta td') c'
        = DateTime_getquoted rt (VTimedelta td) c).
Proof.
  assert (forall t k,
            DateTime_getquoted rt (VTimedelta t) k
            = Ok ("'" +:+ str_of_Z (days t) +:+ " days "
                  +:+ str_of_Z (seconds t) +:+ ".0 seconds'::interval"))
    as Hlit.
  { intros t k. unfold DateTime_getquoted. rewrite bind_Ok.
    apply _ensure_bytes_str. }
  split; [apply Hlit|].
  intros td' c' Hdays Hseconds. by rewrite !Hlit, Hdays, Hseconds.
Qed.

(** One day and 30 seconds, with and without 250 microseconds. *)
Lemma interval_literal_witness :
  DateTime_getquoted Sample.runtime
    (VTimedelta {| days := 1; seconds := 30; microseconds := 250 |})
    (Some Sample.conn_e)
  = DateTime_getquoted Sample.runtime
      (VTimedelta {| days := 1; seconds := 30; microseconds := 0 |}) None.
Proof.
  apply (interval_literal Sample.runtime
           {| days := 1; seconds := 30; microseconds := 0 |} None);
    reflexivity.
Defined.

Lemma getquoted_DateTime (rt : Runtime) (adapters : Registry) (depth : nat)
    (w : Value) (c : option Connection) :
  getquoted rt adapters depth (VAdapter DateTime w c)
  = (let! b := DateTime_getquoted rt w c in Ok (VStr b)).
Proof. by destruct depth. Qed.

Lemma DateTime_getquoted_iso (rt : Runtime) (w : Value) (format : string)
    (c : option Connection) :
  match w with
  | VDate _ => format = "date"
  | VTime _ => format = "time"
  | VDatetime dt =>
      format = match tzinfo (dt_time dt) with
               | Some _ => "timestamptz"
               | None => "timestamp"
               end
  | _ => False
  end ->
  (let! b := DateTime_getquoted rt w c in Ok (VStr b))
  = temporal_literal (builtin_isoformat rt w) format.
Proof.
  unfold DateTime_getquoted, temporal_literal.
  destruct w; try done; intros ->; simpl;
    (destruct (builtin_isoformat rt _) as [iso|]; [|reflexivity]; simpl;
     by rewrite _ensure_bytes_str).
Qed.

(** X15: what the construction helpers return, quoted.  With [<iso>] the
    [isoformat()] of the calendar value that the helper built: a valid
    [Date] gives ['<iso>'::date]; a valid [Time] gives ['<iso>'::time],
    with or without a time zone; a valid [Timestamp] gives
    ['<iso>'::timestamp] without a time zone and ['<iso>'::timestamptz]
    with one; what [DateFromTicks] and [TimeFromTicks] build is quoted as a
    [date] and as a [time].  When [isoformat()] raises (it calls the time
    zone), [getquoted] raises the same exception. *)
Theorem temporal_helper_literals (rt : Runtime) (adapters : Registry)
    (depth : nat) :
  (forall y m d,
     valid_date y m d ->
     exists a,
       Date y m d = Ok a
       /\ getquoted rt adapters depth a
          = temporal_literal
              (builtin_isoformat rt
                 (VDate {| year := y; month := m; day := d |}))
              "date")
  /\ (forall h mi s tz,
        valid_time h mi s ->
        exists a,
          Time h mi s tz = Ok a
          /\ getquoted rt adapters depth a
             = temporal_literal
                 (builtin_isoformat rt
                    (VTime {| hour := h; minute := mi; second := s;
                              microsecond := 0; tzinfo := tz |}))
                 "time")
  /\ (forall y m d h mi s tz,
        valid_date y m d -> valid_time h mi s ->
        exists a,
          Timestamp y m d h mi s tz = Ok a
          /\ getquoted rt adapters depth a
             = temporal_literal
                 (builtin_isoformat rt
                    (VDatetime
                       {| dt_date := {| year := y; month := m; day := d |};
                          dt_time := {| hour := h; minute := mi;
                                        second := s; microsecond := 0;
                                        tzinfo := tz |} |}))
                 match tz with
                 | Some _ => "timestamptz"
                 | None => "timestamp"
                 end)
  /\ (forall ticks dt,
        fromtimestamp rt ticks None = Ok dt ->
        exists a b,
          DateFromTicks rt ticks = Ok a
          /\ getquoted rt adapters depth a
             = temporal_literal
                 (builtin_isoformat rt (VDate (datetime_get_date dt)))
                 "date"
          /\ TimeFromTicks rt ticks = Ok b
          /\ getquoted rt adapters depth b
             = temporal_literal
                 (builtin_isoformat rt (VTime (datetime_get_time dt)))
                 "time").
Proof.
  split; [|split; [|split]].
  - intros y m d Hd. eexists. split.
    + unfold Date, datetime_date.
      destruct (valid_date_fits _ _ _ Hd) as (Hy & Hm & Hday).
      rewrite !parse_c_int_fits, !bind_Ok by assumption.
      by rewrite (check_date_fields_valid _ _ _ Hd).
    + rewrite getquoted_DateTime. by apply DateTime_getquoted_iso.
  - intros h mi s tz Ht. eexists. split.
    + unfold Time, datetime_time.
      destruct (valid_time_fits _ _ _ Ht) as (Hh & Hmi & Hs).
      rewrite !parse_c_int_fits, !bind_Ok by assumption.
      by rewrite (check_time_fields_valid _ _ _ Ht).
    + rewrite getquoted_DateTime. by apply DateTime_getquoted_iso.
  - intros y m d h mi s tz Hd Ht. eexists. split.
    + unfold Timestamp, datetime_datetime.
      destruct (valid_date_fits _ _ _ Hd) as (Hy & Hm & Hday).
      destruct (valid_time_fits _ _ _ Ht) as (Hh & Hmi & Hs).
      rewrite !parse_c_int_fits, !bind_Ok by assumption.
      by rewrite (check_date_fields_valid _ _ _ Hd),
                 (check_time_fields_valid _ _ _ Ht).
    + rewrite getquoted_DateTime. by apply DateTime_getquoted_iso.
  - intros ticks dt Hdt. unfold DateFromTicks, TimeFromTicks.
    rewrite Hdt. eexists. eexists.
    split; [reflexivity|]. split; [|split; [reflexivity|]].
    + rewrite getquoted_DateTime. by apply DateTime_getquoted_iso.
    + rewrite getquoted_DateTime. by apply DateTime_getquoted_iso.
Qed.

(** On the sample runtime: a date, a timestamp one hour east of Greenwich,
    and a time with the local time zone, whose [isoformat()] raises. *)
Lemma temporal_helper_literals_witness :
  (exists a,
     Date 2020 2 29 = Ok a
     /\ getquoted Sample.runtime Sample.adapters 0 a
        = Ok (VStr "'2020-02-29'::date"))
  /\ (exists a,
        Timestamp 2020 2 29 12 0 5 (Some (TzOffset 60)) = Ok a
        /\ getquoted Sample.runtime Sample.adapters 0 a
           = Ok (VStr "'2020-02-29T12:00:05+01:00'::timestamptz"))
  /\ (exists a,
        Time 1 2 3 (Some TZ_LOCAL) = Ok a
        /\ getquoted Sample.runtime Sample.adapters 0 a
           = Raise AttributeError
               "'NoneType' object has no attribute 'year'").
Proof.
  destruct (temporal_helper_literals Sample.runtime Sample.adapters 0)
    as (Hdate & Htime & Htimestamp & _).
  split; [|split].
  - apply Hdate. unfold valid_date, MINYEAR, MAXYEAR.
    change (days_in_month 2020 2) with 29%Z. lia.
  - apply (Htimestamp 2020 2 29 12 0 5 (Some (TzOffset 60)))%Z.
    + unfold valid_date, MINYEAR, MAXYEAR.
      change (days_in_month 2020 2) with 29%Z. lia.
    + unfold valid_time. lia.
  - apply (Htime 1 2 3 (Some TZ_LOCAL))%Z. unfold valid_time. lia.
Defined.

(** ** [AsIs] and the recursion depth *)

(** X16: [AsIs] emits the text of the wrapped object as it is: a byte
    string comes out unquoted and unescaped, an integer without the space
    of the sign rule.  An object whose [__conform__] hook answers with an
    [AsIs] of a byte string is rendered by [_getquoted] as that string,
    for every registry and connection. *)
Theorem AsIs_verbatim (rt : Runtime) (adapters : Registry) (depth : nat)
    (conn : option Connection) :
  (forall s c, AsIs_getquoted rt (VStr s) c = Ok s)
  /\ (forall n c, AsIs_getquoted rt (VInt n) c = Ok (str_of_Z n))
  /\ (forall ty hook s c0,
        hook proto_ISQLQuote = Ok (VAdapter AsIs (VStr s) c0) ->
        _getquoted rt adapters depth (VObject ty (Some hook)) conn
        = Ok (VStr s)).
Proof.
  assert (forall s c, AsIs_getquoted rt (VStr s) c = Ok s) as Hstr.
  { intros s c. unfold AsIs_getquoted. simpl. apply _ensure_bytes_str. }
  split; [exact Hstr|]. split.
  - intros n c. unfold AsIs_getquoted. simpl. apply _ensure_bytes_str.
  - intros ty hook s c0 Hhook. unfold _getquoted, _getquoted_with.
    change (adapt rt adapters (VObject ty (Some hook)) proto_ISQLQuote)
      with (hook proto_ISQLQuote).
    rewrite Hhook, bind_Ok, call_prepare_adapter.
    simpl has_prepare. destruct depth; simpl; by rewrite Hstr.
Qed.

(** The sample object whose hook answers [AsIs("now()")]. *)
Lemma AsIs_verbatim_witness :
  _getquoted Sample.runtime Sample.adapters 0 Sample.now
    (Some Sample.conn_e)
  = Ok (VStr "now()").
Proof.
  destruct (AsIs_verbatim Sample.runtime Sample.adapters 0
              (Some Sample.conn_e)) as (_ & _ & Hhook).
  apply (Hhook 1%positive Sample.now_conform "now()" None). reflexivity.
Defined.

(** X17: the recursion depth left to the interpreter only matters when it
    runs out: a literal that [_getquoted] returns at some depth is returned
    at every greater depth. *)
Theorem _getquoted_deeper (rt : Runtime) (adapters : Registry)
    (depth depth' : nat) (param : Value) (conn : option Connection)
    (v : Value) :
  (depth <= depth')%nat ->
  _getquoted rt adapters depth param conn = Ok v ->
  _getquoted rt adapters depth' param conn = Ok v.
Proof.
  induction 1 as [|depth' _ IH]; [done|].
  intros Hv. apply _getquoted_depth_mono. by apply IH.
Qed.

(** A nested list quoted at depth 2 and at depth 5. *)
Lemma _getquoted_deeper_witness :
  _getquoted Sample.runtime Sample.adapters 5
    (VList [VList [VInt 1]; VList []]) None
  = Ok (VStr "ARRAY[ARRAY[1], '{}']").
Proof.
  apply (_getquoted_deeper Sample.runtime Sample.adapters 2 5).
  - lia.
  - reflexivity.
Defined.

(** ** Strings and special numbers as parameters *)

Lemma adapters_at_import_str (rt : Runtime) :
  adapters_at_import rt !! (TBuiltin t_str, proto_ISQLQuote)
  = Some QuotedString.
Proof.
  unfold adapters_at_import, register_adapter, adapters_initial,
    built_in_adapters.
  destruct (version_lt (version_info rt) (3, 0)%Z),
    (version_lt (2, 6)%Z (version_info rt)); reflexivity.
Qed.

Lemma QuotedString_getquoted_str (rt : Runtime) (s : string)
    (c : option Connection) :
  QuotedString_getquoted rt (VStr s) c
  = Ok ((if conn_equote c then "E'" else "'")
        +:+ buffer_value (QuotedString_escape rt s c) +:+ "'").
Proof.
  unfold QuotedString_getquoted. rewrite _ensure_bytes_str, bind_Ok.
  by destruct (conn_equote c).
Qed.

Lemma _getquoted_str_at_import (rt : Runtime) (depth : nat)
    (conn : option Connection) (s : string) :
  version_lt (version_info rt) (3, 0)%Z = true ->
  _getquoted rt (adapters_at_import rt) depth (VStr s) conn
  = Ok (VStr ((if conn_equote conn then "E'" else "'")
              +:+ buffer_value (QuotedString_escape rt s conn) +:+ "'")).
Proof.
  intros Hpython2. unfold _getquoted, _getquoted_with.
  rewrite (adapt_registered rt _ (VStr s) _ QuotedString eq_refl).
  - rewrite bind_Ok, call_prepare_adapter. simpl has_prepare.
    destruct depth; simpl; by rewrite QuotedString_getquoted_str.
  - unfold type_of, python3. rewrite Hpython2. apply adapters_at_import_str.
Qed.

(** X18: on the registry after import, on Python 2, a byte string given as
    a parameter never fails: it is quoted by [QuotedString] bound to the
    connection of the call, so that the escape function and the opening
    quote are those of that connection.  The same holds for the strings of
    a list, which are quoted with the connection of the call and joined
    into [ARRAY[...]].  On the Python 3 branch of the table a byte string
    (a [bytes]) has no entry and is refused with [ProgrammingError]. *)
Theorem str_parameter (rt : Runtime) (depth : nat)
    (conn : option Connection) :
  let quote s :=
    (if conn_equote conn then "E'" else "'")
    +:+ buffer_value (QuotedString_escape rt s conn) +:+ "'" in
  (version_lt (version_info rt) (3, 0)%Z = true ->
   (forall s,
      _getquoted rt (adapters_at_import rt) depth (VStr s) conn
      = Ok (VStr (quote s)))
   /\ (forall ss,
         ss <> [] ->
         _getquoted rt (adapters_at_import rt) (S depth)
           (VList (map VStr ss)) conn
         = Ok (VStr ("ARRAY[" +:+ String.concat ", " (map quote ss)
                     +:+ "]"))))
  /\ (version_lt (version_info rt) (3, 0)%Z = false ->
      forall s,
        _getquoted rt (adapters_at_import rt) depth (VStr s) conn
        = Raise ProgrammingError "can't adapt type 'bytes'").
Proof.
  intros quote. split.
  - intros Hpython2. split; [intros s; by apply _getquoted_str_at_import|].
    intros ss Hne. rewrite _getquoted_list_at_import.
    rewrite (List_getquoted_elements rt _ depth (map VStr ss) (map quote ss)
               conn).
    + reflexivity.
    + by destruct ss.
    + clear Hne. induction ss as [|s ss IH]; simpl; constructor; [|exact IH].
      by apply _getquoted_str_at_import.
  - intros Hpython3 s.
    unfold _getquoted, _getquoted_with, adapt, type_of, python3,
      adapters_at_import, register_adapter, adapters_initial,
      built_in_adapters.
    rewrite Hpython3.
    destruct (version_lt (2, 6)%Z (version_info rt)); reflexivity.
Qed.

(** Two strings in a list against a connection in extended-escape mode, on
    the sample runtime. *)
Lemma str_parameter_witness :
  _getquoted Sample.runtime Sample.adapters 1
    (VList [VStr "a'b"; VStr "c"]) (Some Sample.conn_e)
  = Ok (VStr "ARRAY[E'a''b', E'c']").
Proof.
  destruct (str_parameter Sample.runtime 0 (Some Sample.conn_e))
    as (Hpython2 & _).
  destruct (Hpython2 eq_refl) as (_ & Hlist).
  apply (Hlist ["a'b"; "c"]). discriminate.
Defined.

(** X19: on the registry after import, whatever the interpreter version,
    its [repr] and [str], the connection and the depth, the float NaN is
    rendered as ['NaN'::float], the infinities as ['Infinity'::float] and
    ['-Infinity'::float], and a decimal that is not finite (NaN, signalling
    NaN, either infinity) as ['NaN'::numeric]. *)
Theorem special_number_parameters (rt : Runtime) (depth : nat)
    (conn : option Connection) :
  _getquoted rt (adapters_at_import rt) depth (VFloat S754_nan) conn
  = Ok (VStr "'NaN'::float")
  /\ _getquoted rt (adapters_at_import rt) depth
       (VFloat (S754_infinity false)) conn
     = Ok (VStr "'Infinity'::float")
  /\ _getquoted rt (adapters_at_import rt) depth
       (VFloat (S754_infinity true)) conn
     = Ok (VStr "'-Infinity'::float")
  /\ (forall d,
        is_finite d = false ->
        _getquoted rt (adapters_at_import rt) depth (VDecimal d) conn
        = Ok (VStr "'NaN'::numeric")).
Proof.
  split; [|split; [|split]];
    try (unfold _getquoted, _getquoted_with, adapt, adapters_at_import,
           register_adapter, adapters_initial, built_in_adapters;
         destruct (version_lt (version_info rt) (3, 0)%Z),
           (version_lt (2, 6)%Z (version_info rt)), depth; reflexivity).
  intros d Hd. destruct d as [sign coefficient []]; try discriminate Hd;
    unfold _getquoted, _getquoted_with, adapt, adapters_at_import,
      register_adapter, adapters_initial, built_in_adapters;
    destruct (version_lt (version_info rt) (3, 0)%Z),
      (version_lt (2, 6)%Z (version_info rt)), depth; reflexivity.
Qed.

(** The decimal -Infinity on the sample runtime. *)
Lemma special_number_parameters_witness :
  _getquoted Sample.runtime Sample.adapters 0
    (VDecimal {| dec_sign := true; dec_int := 0; dec_exp := ExpF |}) None
  = Ok (VStr "'NaN'::numeric").
Proof.
  destruct (special_number_parameters Sample.runtime 0 None)
    as (_ & _ & _ & Hdecimal).
  apply Hdecimal. reflexivity.
Defined.
